(** * MindLens: the resilient ingestion-and-scoring core

    A shallow embedding of the scoring engine ([model_manager.py]), the
    trend classifier ([api/utils.py]), the fallback store and failure
    classifier ([offline_storage.py]) and the two orchestrating request
    handlers [habits] and [get_scans] ([app.py]), followed by the
    properties of the specification that concern them.

    Conventions of the embedding.
    - A Python [dict] with string keys is a [gmap string pyval].
    - Python [float] and [int] arithmetic is carried out over the
      rationals [Q]: sums, products, quotients and comparisons are the
      exact ones.  Rounding of IEEE doubles, NaN and infinities are outside
      the model.
    - A call that may raise returns an [outcome]; handlers that also touch
      the stores run in the monad [M], which threads the [world]. *)

From Stdlib Require Import QArith Qminmax Qabs Lia Lqa OrdersEx.
From stdpp Require Import gmap strings list sorting.

Open Scope Q_scope.

(* ===================================================================== *)
(** ** Python values, exceptions and outcomes                            *)
(* ===================================================================== *)

(** The JSON-like values that occur in feature dictionaries and rows. *)
Inductive pyval : Type :=
  | VNone
  | VBool (b : bool)
  | VInt (z : Z)
  | VFloat (q : Q)
  | VStr (s : string).

Global Instance Q_eq_dec : EqDecision Q.
Proof. solve_decision. Defined.

Global Instance pyval_eq_dec : EqDecision pyval.
Proof. solve_decision. Defined.

(** An exception as the failure classifier sees it: [type(e).__name__]
    and [str(e)]. *)
Record exn : Type := MkExn { exn_type : string; exn_msg : string }.

Inductive outcome (A : Type) : Type :=
  | Returned (a : A)
  | Raised (e : exn).
Arguments Returned {A} a.
Arguments Raised {A} e.

Definition obind {A B} (x : outcome A) (f : A -> outcome B) : outcome B :=
  match x with
  | Returned a => f a
  | Raised e => Raised e
  end.

Definition TypeError (msg : string) : exn := MkExn "TypeError" msg.
Definition ValueError (msg : string) : exn := MkExn "ValueError" msg.

(** Numeric view of a value: [bool] is a subclass of [int] in Python. *)
Definition as_num (v : pyval) : option Q :=
  match v with
  | VBool b => Some (if b then 1 else 0)
  | VInt z => Some (inject_Z z)
  | VFloat q => Some q
  | VNone | VStr _ => None
  end.

Definition Qlt_bool (x y : Q) : bool := negb (Qle_bool y x).

(** [v * 100 * 0.3]: a number gives the product; [None] raises at the
    first [*]; a string is repeated by [* 100] and raises at [* 0.3].
    The product is the exact one; an [int] too large for a [float], at
    which [* 0.3] raises [OverflowError], is outside the model, as
    rounding is. *)
Definition py_mul_100_03 (v : pyval) : outcome Q :=
  match as_num v with
  | Some q => Returned (q * 100 * 0.3)
  | None => Raised (TypeError "unsupported operand type(s) for *")
  end.

(** [v > c] for a float constant [c]. *)
Definition py_gt_const (v : pyval) (c : Q) : outcome bool :=
  match as_num v with
  | Some q => Returned (Qlt_bool c q)
  | None => Raised (TypeError "'>' not supported between instances")
  end.

(** [table.get(key, dflt)] for a table with string keys: a key that is
    not a string is equal to no entry. *)
Definition table_get (table : gmap string Q) (key : pyval) (dflt : Q) : Q :=
  match key with
  | VStr s => default dflt (table !! s)
  | _ => dflt
  end.

(** [d.get(key, dflt)] and [d.get(key)]. *)
Definition dict_get (d : gmap string pyval) (key : string) (dflt : pyval) : pyval :=
  default dflt (d !! key).

Definition dict_get_none (d : gmap string pyval) (key : string) : pyval :=
  dict_get d key VNone.

(* ===================================================================== *)
(** ** Scoring engine: [model_manager.py]                                *)
(* ===================================================================== *)

(** An object restored by [joblib.load].  [truthy] is [bool(obj)]: a
    pickle may hold an object that is falsy, an empty [dict] for
    instance.  [predict] stands for [float(model.predict(df)[0])] on the
    one-row frame built from the given columns. *)
Record estimator : Type := MkEstimator {
  truthy : bool;
  predict : gmap string pyval -> outcome Q
}.

(** [ModelManager]: an attribute that is [None] is [None] here, a loaded
    object is [Some]. *)
Record ModelManager : Type := MkModelManager {
  stress_model_bundle : option estimator;
  health_model : option estimator;
  models_loaded : bool
}.

(** [bool(attr)] for an attribute that holds [None] or a loaded object. *)
Definition py_bool (attr : option estimator) : bool :=
  match attr with
  | Some obj => truthy obj
  | None => false
  end.

Definition ModelManager_init : ModelManager :=
  MkModelManager None None false.

(** [load_models]: each argument tells whether the model file exists
    ([None]: it does not) and what [joblib.load] does with it. *)
Definition load_models (self : ModelManager)
    (stress_pkl health_pkl : option (outcome estimator)) : bool * ModelManager :=
  match stress_pkl with
  | None => (false, self)
  | Some (Raised _) => (false, self)
  | Some (Returned b) =>
      let self := MkModelManager (Some b) (health_model self) (models_loaded self) in
      match health_pkl with
      | None => (false, self)
      | Some (Raised _) => (false, self)
      | Some (Returned h) =>
          let self := MkModelManager (stress_model_bundle self) (Some h) (models_loaded self) in
          (true, MkModelManager (stress_model_bundle self) (health_model self) true)
      end
  end.

Record stress_result : Type := MkStressResult {
  stress_prediction : string;
  stress_confidence : Q
}.

Definition emotion_scores : gmap string Q :=
  <["happy" := 10]> (<["neutral" := 30]> (<["sad" := 50]>
    (<["fear" := 70]> (<["angry" := 80]> ∅)))).

Definition posture_scores : gmap string Q :=
  <["good" := 5]> (<["fair" := 15]> (<["poor" := 25]> (<["unknown" := 15]> ∅))).

(** Lines 115-150 of [predict_stress]: the additive score.  (Lines
    84-98 before them build a one-row frame from the features that is
    not used afterwards.) *)
Definition stress_score (feature_dict : gmap string pyval) : outcome Q :=
  let emotion := dict_get feature_dict "emotion" (VStr "neutral") in
  let jaw_tension := dict_get feature_dict "jaw_clench_score" (VFloat 0) in
  let posture := dict_get feature_dict "posture_quality" (VStr "unknown") in
  let mouth_open := dict_get feature_dict "mouth_open" (VFloat 0) in
  let eyebrow_raise := dict_get feature_dict "eyebrow_raise" (VFloat 0) in
  let stress_score := 0 in
  let stress_score := stress_score + table_get emotion_scores emotion 30 in
  obind (py_mul_100_03 jaw_tension) (fun jaw =>
  let stress_score := stress_score + jaw in
  let stress_score := stress_score + table_get posture_scores posture 15 in
  obind (py_gt_const mouth_open 0.03) (fun wide =>
  let stress_score := if wide then stress_score + 5 else stress_score in
  obind (py_gt_const eyebrow_raise 0.1) (fun raised =>
  let stress_score := if raised then stress_score + 5 else stress_score in
  Returned stress_score))).

(** Lines 152-171: bucket and confidence from the score. *)
Definition classify_stress (stress_score : Q) : stress_result :=
  let '(prediction, confidence) :=
    if Qlt_bool stress_score 35 then
      ("low"%string, 0.75 + (35 - stress_score) / 100)
    else if Qlt_bool stress_score 60 then
      ("medium"%string, 0.70 + Qabs (47.5 - stress_score) / 100)
    else
      ("high"%string, 0.72 + (stress_score - 60) / 100) in
  MkStressResult prediction (Qmin 0.95 confidence).

Definition predict_stress (self : ModelManager)
    (feature_dict : gmap string pyval) : stress_result :=
  if negb (models_loaded self) || negb (py_bool (stress_model_bundle self))
  then MkStressResult "unknown" 0
  else
    match stress_score feature_dict with
    | Returned s => classify_stress s
    | Raised _ => MkStressResult "medium" 0
    end.

Record wellness_result : Type := MkWellnessResult {
  wellness_score : Q;
  wellness_confidence : Q
}.

(** The columns [predict_wellness] hands to the health model. *)
Definition wellness_inputs (habit_inputs : gmap string pyval) : gmap string pyval :=
  <["age" := dict_get habit_inputs "age" (VInt 25)]>
  (<["sleep_hours" := dict_get habit_inputs "sleep_hours" (VInt 7)]>
  (<["work_hours" := dict_get habit_inputs "work_hours" (VInt 8)]>
  (<["screen_time" := dict_get habit_inputs "screen_time" (VInt 6)]>
  (<["water_intake" := dict_get habit_inputs "water_intake" (VInt 2)]>
  (<["exercise" := dict_get habit_inputs "exercise" (VInt 0)]>
  (<["caffine_intake" := dict_get habit_inputs "caffine_intake" (VInt 0)]>
  (<["meals_per_day" := dict_get habit_inputs "meals_per_day" (VInt 3)]>
  (<["social_interaction" := dict_get habit_inputs "social_interaction" (VInt 1)]> ∅)))))))).

Definition predict_wellness (self : ModelManager)
    (habit_inputs : gmap string pyval) : wellness_result :=
  if negb (models_loaded self) || negb (py_bool (health_model self))
  then MkWellnessResult 50 0
  else
    match health_model self with
    | Some model =>
        match predict model (wellness_inputs habit_inputs) with
        | Returned score => MkWellnessResult score 0.9
        | Raised _ => MkWellnessResult 50 0
        end
    | None => MkWellnessResult 50 0
    end.

(* ===================================================================== *)
(** ** Trend classification: [api/utils.py]                              *)
(* ===================================================================== *)

(** Python's [sum]: a left fold starting from [0]. *)
Definition py_sum (l : list Q) : Q := foldl Qplus 0 l.

Definition nat_to_Q (n : nat) : Q := inject_Z (Z.of_nat n).

(** [calculate_stress_trend].  Both divisors are at least 1 once the
    guard has let a list of two or more elements through, so neither
    division can raise.  The sums, the two means and their difference
    are the exact ones. *)
Definition calculate_stress_trend (stress_levels : list Q) : string :=
  if bool_decide (stress_levels = []) || (length stress_levels <? 2)%nat then
    "stable"
  else
    let half := (length stress_levels / 2)%nat in
    let avg_first_half :=
      py_sum (take half stress_levels) / nat_to_Q half in
    let avg_second_half :=
      py_sum (drop half stress_levels)
        / nat_to_Q (length stress_levels - half) in
    if Qlt_bool (Qabs (avg_second_half - avg_first_half)) 0.5 then "stable"
    else if Qlt_bool avg_first_half avg_second_half then "increasing"
    else "decreasing".

(* ===================================================================== *)
(** ** Failure classifier: [offline_storage.is_network_error]            *)
(* ===================================================================== *)

(** [needle in hay] on strings. *)
Fixpoint contains (needle hay : string) : bool :=
  String.prefix needle hay ||
  match hay with
  | EmptyString => false
  | String _ rest => contains needle rest
  end.

Definition network_indicators : list string :=
  ["ConnectError"; "getaddrinfo"; "httpx"; "ConnectionError";
   "TimeoutError"; "NetworkError"; "DNSError"]%string.

Definition is_network_error (exception : exn) : bool :=
  let error_msg := exn_msg exception in
  let error_type := exn_type exception in
  existsb (fun indicator =>
             contains indicator error_type || contains indicator error_msg)
          network_indicators.

(* ===================================================================== *)
(** ** The world the handlers run in                                     *)
(* ===================================================================== *)

Abbreviation row := (gmap string pyval).

(** What lies outside the program: the identifiers [uuid.uuid4] hands
    out, the readings of the clock, the answers of the remote store to a
    query (table, ordering column, limit), and [float] on a string. *)
Record env : Type := MkEnv {
  uuid4_at : nat -> string;
  utcnow_at : nat -> string;
  select_rows : string -> string -> Z -> list row;
  float_of_string : string -> option Q
}.

(** A write to a file can fail at two points.  [open(filepath, 'w')]
    raises and the file is as it was; or [open] has truncated the file
    and the dump, or the flush when the file is closed, raises, and the
    file is left without a complete document. *)
Inductive write_stage : Type :=
  | AtOpen
  | AfterOpen.

Record disk_fault : Type := MkDiskFault {
  fault_exn : exn;
  fault_stage : write_stage
}.

(** The state the handlers read and change.
    - [primary_rows]: the rows the remote store has accepted, with their
      table, oldest first.
    - [primary_faults]: what the coming calls to the remote store do, one
      entry per call: [Some e] raises [e], [None] (or no entry) succeeds.
    - [files]: the parsed content of the JSON files of the fallback
      store; a path without entry is a file that is missing or does not
      parse.
    - [disk_faults]: the same schedule for the coming writes to a file,
      each fault with the point of the write at which it strikes.
    - [uuid_calls], [clock_reads]: how many identifiers and clock
      readings have been consumed. *)
Record world : Type := MkWorld {
  primary_rows : list (string * row);
  primary_faults : list (option exn);
  files : gmap string (list row);
  disk_faults : list (option disk_fault);
  uuid_calls : nat;
  clock_reads : nat
}.

(** A computation that may raise and may change the world; what it did to
    the world before raising stays done. *)
Definition M (A : Type) : Type := world -> outcome A * world.

Definition ret {A} (a : A) : M A := fun w => (Returned a, w).
Definition raise {A} (e : exn) : M A := fun w => (Raised e, w).
Definition bind {A B} (c : M A) (k : A -> M B) : M B :=
  fun w =>
    match c w with
    | (Returned a, w') => k a w'
    | (Raised e, w') => (Raised e, w')
    end.
Definition try_except {A} (c : M A) (handler : exn -> M A) : M A :=
  fun w =>
    match c w with
    | (Returned a, w') => (Returned a, w')
    | (Raised e, w') => handler e w'
    end.
Definition lift {A} (x : outcome A) : M A := fun w => (x, w).

Declare Scope py_scope.
Delimit Scope py_scope with py.
Notation "x <- c ;; k" := (bind c (fun x => k))
  (at level 100, c at next level, right associativity) : py_scope.
Notation "c ;;; k" := (bind c (fun _ => k))
  (at level 100, right associativity) : py_scope.
Open Scope py_scope.

Definition next_fault {A} (faults : list (option A)) : option A * list (option A) :=
  match faults with
  | [] => (None, [])
  | f :: rest => (f, rest)
  end.

(* ===================================================================== *)
(** ** Primary store gateway (the remote client used by [app.py])        *)
(* ===================================================================== *)

(** [supabase_client.table(t).insert(r).execute()] *)
Definition supabase_insert (table : string) (r : row) : M unit :=
  fun w =>
    let '(fault, rest) := next_fault (primary_faults w) in
    match fault with
    | Some e =>
        (Raised e,
         MkWorld (primary_rows w) rest (files w) (disk_faults w)
                 (uuid_calls w) (clock_reads w))
    | None =>
        (Returned tt,
         MkWorld (primary_rows w ++ [(table, r)]) rest (files w) (disk_faults w)
                 (uuid_calls w) (clock_reads w))
    end.

(** [supabase_client.table(t).select("*").order(col, desc=True)
    .limit(limit).execute().data] *)
Definition supabase_select (E : env) (table col : string) (limit : Z) : M (list row) :=
  fun w =>
    let '(fault, rest) := next_fault (primary_faults w) in
    let w' := MkWorld (primary_rows w) rest (files w) (disk_faults w)
                      (uuid_calls w) (clock_reads w) in
    match fault with
    | Some e => (Raised e, w')
    | None => (Returned (select_rows E table col limit), w')
    end.

(** [str(uuid.uuid4())] and [iso_now()] *)
Definition uuid4 (E : env) : M string :=
  fun w =>
    (Returned (uuid4_at E (uuid_calls w)),
     MkWorld (primary_rows w) (primary_faults w) (files w) (disk_faults w)
             (S (uuid_calls w)) (clock_reads w)).

Definition iso_now (E : env) : M string :=
  fun w =>
    (Returned (utcnow_at E (clock_reads w)),
     MkWorld (primary_rows w) (primary_faults w) (files w) (disk_faults w)
             (uuid_calls w) (S (clock_reads w))).

(* ===================================================================== *)
(** ** Fallback store: [offline_storage.OfflineStorage]                  *)
(* ===================================================================== *)

Module Offline.

Record OfflineStorage : Type := MkOfflineStorage {
  data_dir : string;
  users_file : string;
  habits_file : string;
  scans_file : string
}.

Definition path_join (dir name : string) : string := dir +:+ "/" +:+ name.

Definition OfflineStorage_init (data_dir : string) : OfflineStorage :=
  MkOfflineStorage data_dir
    (path_join data_dir "users.json")
    (path_join data_dir "habits.json")
    (path_join data_dir "stress_scans.json").

(** The module-level instance. *)
Definition offline_storage : OfflineStorage := OfflineStorage_init "offline_data".

(** [_read_file]: any failure to open or parse gives the empty list. *)
Definition _read_file (filepath : string) : M (list row) :=
  fun w => (Returned (default [] (files w !! filepath)), w).

(** [_write_file]: [open(filepath, 'w')] may raise, and leaves the file
    as it was.  Once it has returned the file is truncated: a dump or a
    closing flush that raises leaves a file that holds no complete
    document, which [_read_file] reads as the empty list.  Otherwise the
    file holds [data] afterwards. *)
Definition _write_file (filepath : string) (data : list row) : M unit :=
  fun w =>
    let '(fault, rest) := next_fault (disk_faults w) in
    match fault with
    | Some f =>
        (Raised (fault_exn f),
         MkWorld (primary_rows w) (primary_faults w)
                 match fault_stage f with
                 | AtOpen => files w
                 | AfterOpen => delete filepath (files w)
                 end
                 rest (uuid_calls w) (clock_reads w))
    | None =>
        (Returned tt,
         MkWorld (primary_rows w) (primary_faults w)
                 (<[filepath := data]> (files w)) rest
                 (uuid_calls w) (clock_reads w))
    end.

Definition create_habit (self : OfflineStorage) (habit_data : row) : M row :=
  habits <- _read_file (habits_file self) ;;
  let habits := habits ++ [habit_data] in
  _write_file (habits_file self) habits ;;;
  ret habit_data.

Definition create_scan (self : OfflineStorage) (scan_data : row) : M row :=
  scans <- _read_file (scans_file self) ;;
  let scans := scans ++ [scan_data] in
  _write_file (scans_file self) scans ;;;
  ret scan_data.

(** [a < b] on values, as [list.sort] uses it: numbers compare with
    numbers, strings with strings (by code point, which on UTF-8 bytes is
    the byte order); anything else raises [TypeError]. *)
Definition py_lt (a b : pyval) : outcome bool :=
  match a, b with
  | VStr s, VStr t => Returned (String.ltb s t)
  | _, _ =>
      match as_num a, as_num b with
      | Some x, Some y => Returned (Qlt_bool x y)
      | _, _ => Raised (TypeError "'<' not supported between instances")
      end
  end.

(** [l.sort(key=key, reverse=True)].  Python's sort is stable, also with
    [reverse=True]: rows with equal keys keep their order.  The result of
    a stable sort does not depend on the algorithm, so an insertion sort
    stands for it: [x], which comes before the rows of [sorted] in the
    list, goes in front of the first row whose key is not greater. *)
Fixpoint insert_desc (key : row -> pyval) (x : row) (sorted : list row)
    : outcome (list row) :=
  match sorted with
  | [] => Returned [x]
  | y :: rest =>
      obind (py_lt (key x) (key y)) (fun below =>
        if below then
          obind (insert_desc key x rest) (fun r => Returned (y :: r))
        else Returned (x :: y :: rest))
  end.

Fixpoint sort_desc (key : row -> pyval) (l : list row) : outcome (list row) :=
  match l with
  | [] => Returned []
  | x :: rest => obind (sort_desc key rest) (insert_desc key x)
  end.

(** [l[:stop]]: a negative [stop] counts from the end. *)
Definition py_slice_to {A} (l : list A) (stop : Z) : list A :=
  if (0 <=? stop)%Z then take (Z.to_nat stop) l
  else take (length l - Z.to_nat (- stop)) l.

Definition get_habits (self : OfflineStorage) (limit : Z) : M (list row) :=
  habits <- _read_file (habits_file self) ;;
  habits <- lift (sort_desc (fun x => dict_get x "created_at" (VStr "")) habits) ;;
  ret (py_slice_to habits limit).

Definition get_scans (self : OfflineStorage) (limit : Z) : M (list row) :=
  scans <- _read_file (scans_file self) ;;
  scans <- lift (sort_desc (fun x => dict_get x "scanned_at" (VStr "")) scans) ;;
  ret (py_slice_to scans limit).

End Offline.

(* ===================================================================== *)
(** ** Request and response models: [models.py]                          *)
(* ===================================================================== *)

Record HabitSubmission : Type := MkHabitSubmission {
  user_id : string;
  age : Z;
  sleep_hours : Q;
  work_hours : Q;
  screen_time : Q;
  water_intake : Q;
  exercise : bool;
  meals_per_day : Z;
  social_interaction : string;
  caffeine_intake : bool
}.

(** [data.dict()] *)
Definition HabitSubmission_dict (data : HabitSubmission) : row :=
  <["user_id" := VStr (user_id data)]>
  (<["age" := VInt (age data)]>
  (<["sleep_hours" := VFloat (sleep_hours data)]>
  (<["work_hours" := VFloat (work_hours data)]>
  (<["screen_time" := VFloat (screen_time data)]>
  (<["water_intake" := VFloat (water_intake data)]>
  (<["exercise" := VBool (exercise data)]>
  (<["meals_per_day" := VInt (meals_per_day data)]>
  (<["social_interaction" := VStr (social_interaction data)]>
  (<["caffeine_intake" := VBool (caffeine_intake data)]> ∅))))))))).

(** [HabitResponse] declares three fields. *)
Record HabitResponse : Type := MkHabitResponse {
  success : bool;
  message : string;
  habit_id : option string
}.

(** The constructor call [HabitResponse(success=.., message=..,
    habit_id=.., wellness_score=..)] as [app.py] writes it.  The model
    declares no field [wellness_score], and a pydantic [BaseModel] with
    the default configuration drops a keyword it does not declare.
    [habit_id] is declared [Optional[str]]. *)
Definition HabitResponse_new (success : bool) (message : string)
    (habit_id : pyval) (wellness_score : option Q) : outcome HabitResponse :=
  match habit_id with
  | VStr s => Returned (MkHabitResponse success message (Some s))
  | VNone => Returned (MkHabitResponse success message None)
  | _ => Raised (MkExn "ValidationError" "habit_id: str type expected")
  end.

(** [d[key]] *)
Definition dict_getitem (d : row) (key : string) : outcome pyval :=
  match d !! key with
  | Some v => Returned v
  | None => Raised (MkExn "KeyError" key)
  end.

(* ===================================================================== *)
(** ** Orchestrators: the handlers of [app.py]                           *)
(* ===================================================================== *)

Module App.

Section Handlers.

Variable E : env.
Variable model_manager : ModelManager.

(** Lines 292-316: the [try] block of [habits]. *)
Definition habits_try (data : HabitSubmission) : M HabitResponse :=
  let body := HabitSubmission_dict data in
  id <- uuid4 E ;;
  let body := <["id" := VStr id]> body in
  now <- iso_now E ;;
  let body := <["created_at" := VStr now]> body in
  try_except
    (supabase_insert "habits" body)
    (fun db_error =>
       if is_network_error db_error then
         Offline.create_habit Offline.offline_storage body ;;;
         ret tt
       else raise db_error) ;;;
  let prediction := predict_wellness model_manager body in
  habit_id <- lift (dict_getitem body "id") ;;
  lift (HabitResponse_new true "Saved successfully" habit_id
          (Some (wellness_score prediction))).

(** Lines 325-337: the second attempt, inside the outer handler. *)
Definition habits_retry (data : HabitSubmission) : M HabitResponse :=
  let body := HabitSubmission_dict data in
  id <- uuid4 E ;;
  let body := <["id" := VStr id]> body in
  now <- iso_now E ;;
  let body := <["created_at" := VStr now]> body in
  Offline.create_habit Offline.offline_storage body ;;;
  let prediction := predict_wellness model_manager body in
  habit_id <- lift (dict_getitem body "id") ;;
  lift (HabitResponse_new true "Saved offline (no internet connection)" habit_id
          (Some (wellness_score prediction))).

Definition habits_failed : HabitResponse :=
  MkHabitResponse false "Error saving habit" None.

(** [POST /submit-habits] *)
Definition habits (data : HabitSubmission) : M HabitResponse :=
  try_except
    (habits_try data)
    (fun e =>
       if is_network_error e then
         try_except (habits_retry data) (fun _ => ret habits_failed)
       else ret habits_failed).

(** [float(v)] *)
Definition py_float (v : pyval) : outcome Q :=
  match v with
  | VStr s =>
      match float_of_string E s with
      | Some q => Returned q
      | None => Raised (ValueError "could not convert string to float")
      end
  | _ =>
      match as_num v with
      | Some q => Returned q
      | None => Raised (TypeError "float() argument must be a string or a real number")
      end
  end.

(** The feature dictionary [get_scans] rebuilds from a stored row: every
    key is present, with [None] where the row has none. *)
Definition scan_features (scan : row) : row :=
  <["emotion" := dict_get_none scan "emotion"]>
  (<["emotion_confidence" := dict_get_none scan "emotion_confidence"]>
  (<["mouth_open" := dict_get_none scan "mouth_open"]>
  (<["eyebrow_raise" := dict_get_none scan "eyebrow_raise"]>
  (<["jaw_clench_score" := dict_get_none scan "jaw_clench_score"]>
  (<["posture_quality" := dict_get_none scan "posture_quality"]>
  (<["slouch_score" := dict_get_none scan "slouch_score"]>
  (<["head_tilt_angle" := dict_get_none scan "head_tilt_angle"]>
  (<["shoulder_alignment_diff" := dict_get_none scan "shoulder_alignment_diff"]>
  (<["spine_curve_ratio" := dict_get_none scan "spine_curve_ratio"]>
  (<["pose_confidence" := dict_get_none scan "pose_confidence"]> ∅)))))))))).

(** Lines 535-573: the body of the loop, one row formatted. *)
Definition format_scan (scan : row) : outcome row :=
  let features := scan_features scan in
  let prediction := predict_stress model_manager features in
  let posture_str := dict_get scan "posture_quality" (VStr "unknown") in
  let posture_value : Q :=
    if decide (posture_str = VStr "good") then 100
    else if decide (posture_str = VStr "fair") then 60
    else 30 in
  obind (py_float (dict_get scan "emotion_confidence" (VFloat 0.5))) (fun conf =>
  obind (py_float (dict_get scan "jaw_clench_score" (VFloat 0))) (fun jaw =>
  let overall : Q :=
    if String.eqb (stress_prediction prediction) "low" then 20
    else if String.eqb (stress_prediction prediction) "medium" then 50
    else 80 in
  Returned
    (<["id" := dict_get scan "id" (VStr "")]>
    (<["emotion" := dict_get scan "emotion" (VStr "neutral")]>
    (<["emotionConfidence" := VFloat conf]>
    (<["jawTension" := VFloat (jaw * 100)]>
    (<["postureQuality" := VFloat posture_value]>
    (<["overallStress" := VFloat overall]>
    (<["stressPrediction" := VStr (stress_prediction prediction)]>
    (<["stressConfidence" := VFloat (stress_confidence prediction)]>
    (<["timestamp" := dict_get scan "scanned_at" (VStr "")]>
    (<["imageUrl" := dict_get_none scan "image_url"]> ∅)))))))))))).

(** The loop: a row whose formatting raises is reported and skipped. *)
Definition format_scans (scans_data : list row) : list row :=
  foldl (fun scans scan =>
           match format_scan scan with
           | Returned entry => scans ++ [entry]
           | Raised _ => scans
           end) [] scans_data.

Record scans_response : Type := MkScansResponse {
  resp_success : bool;
  resp_data : list row
}.

(** Lines 511-581: the [try] block of [get_scans]; [supabase_select]
    gives [response.data]. *)
Definition get_scans_try (limit : Z) : M scans_response :=
  scans_data <-
    try_except
      (supabase_select E "stress_scan" "scanned_at" limit)
      (fun db_error =>
         if is_network_error db_error then Offline.get_scans Offline.offline_storage limit
         else raise db_error) ;;
  if bool_decide (scans_data = []) then ret (MkScansResponse true [])
  else ret (MkScansResponse true (format_scans scans_data)).

(** [GET /api/scans] *)
Definition get_scans (limit : Z) : M scans_response :=
  try_except
    (get_scans_try limit)
    (fun e => ret (MkScansResponse true [])).

End Handlers.

End App.

(* ===================================================================== *)
(** ** The specification's wording, and the predicates of the statements *)
(* ===================================================================== *)

(** The scoring rules below follow the text of the specification, not the
    code; the theorems compare them with [stress_score] and
    [classify_stress]. *)

Definition spec_emotion_term (label : pyval) : Q :=
  if decide (label = VStr "happy") then 10
  else if decide (label = VStr "neutral") then 30
  else if decide (label = VStr "sad") then 50
  else if decide (label = VStr "fear") then 70
  else if decide (label = VStr "angry") then 80
  else 30.

Definition spec_posture_term (label : pyval) : Q :=
  if decide (label = VStr "good") then 5
  else if decide (label = VStr "fair") then 15
  else if decide (label = VStr "poor") then 25
  else 15.

Definition spec_stress_score (emotion : pyval) (jaw : Q) (posture : pyval)
    (mouth brow : Q) : Q :=
  spec_emotion_term emotion
  + jaw * 100 * 0.3
  + spec_posture_term posture
  + (if Qlt_le_dec 0.03 mouth then 5 else 0)
  + (if Qlt_le_dec 0.1 brow then 5 else 0).

Definition spec_bucket (score : Q) : string :=
  if Qlt_le_dec score 35 then "low"
  else if Qlt_le_dec score 60 then "medium"
  else "high".


(** The guard of [predict_stress]: the flag [load_models] sets on success
    and a bundle that is there and truthy. *)
Definition stress_model_ready (self : ModelManager) : Prop :=
  models_loaded self = true /\ py_bool (stress_model_bundle self) = true.

(** A numeric feature as the scoring rules read it: the value under
    [key], [0.0] when the key is absent. *)
Definition feature_num (feature_dict : gmap string pyval) (key : string) : option Q :=
  as_num (dict_get feature_dict key (VFloat 0)).

(** A feature mapping with exactly the five features the rules use. *)
Definition stress_features (emotion : string) (jaw : Q) (posture : string)
    (mouth brow : Q) : gmap string pyval :=
  <["emotion" := VStr emotion]>
  (<["jaw_clench_score" := VFloat jaw]>
  (<["posture_quality" := VStr posture]>
  (<["mouth_open" := VFloat mouth]>
  (<["eyebrow_raise" := VFloat brow]> ∅)))).

(** Mean of a non-empty list. *)
Definition mean (l : list Q) : Q := py_sum l / nat_to_Q (length l).

(** The timestamp a stored row sorts by: the string under [col], the
    empty string when the row has none. *)
Definition timestamp (col : string) (r : gmap string pyval) : string :=
  match r !! col with
  | Some (VStr s) => s
  | _ => ""
  end.

(** A row carries its timestamp as a string, or not at all. *)
Definition timestamp_ok (col : string) (r : gmap string pyval) : Prop :=
  r !! col = None \/ exists s, r !! col = Some (VStr s).

Definition timestamps_ok (col : string) (l : list (gmap string pyval)) : Prop :=
  Forall (timestamp_ok col) l.

(** The key of the two sorts of the fallback store. *)
Definition sort_key (col : string) : gmap string pyval -> pyval :=
  fun x => dict_get x col (VStr "").

(** [a] is at least as recent as [b]. *)
Definition ts_ge (col : string) (a b : gmap string pyval) : Prop :=
  String.leb (timestamp col b) (timestamp col a) = true.

(** No row is followed by a row with a greater timestamp. *)
Definition newest_first (col : string) (l : list (gmap string pyval)) : Prop :=
  forall (i j : nat) (a b : gmap string pyval),
    (i < j)%nat -> l !! i = Some a -> l !! j = Some b -> ts_ge col a b.

(** Rows without timestamp come after every row with a non-empty one. *)
Definition missing_last (col : string) (l : list (gmap string pyval)) : Prop :=
  forall (i j : nat) (a b : gmap string pyval),
    l !! i = Some a -> l !! j = Some b ->
    a !! col = None -> timestamp col b <> ""%string -> (j < i)%nat.

(** What the fallback store holds under a path. *)
Definition stored (w : world) (filepath : string) : list (gmap string pyval) :=
  default [] (files w !! filepath).

(** The record an ingestion that starts in [w] builds: the submitted
    fields with the identifier and the timestamp drawn in [w]. *)
Definition habit_body (E : env) (data : HabitSubmission) (w : world)
    : gmap string pyval :=
  <["created_at" := VStr (utcnow_at E (clock_reads w))]>
    (<["id" := VStr (uuid4_at E (uuid_calls w))]> (HabitSubmission_dict data)).

(** The next call to the remote store, resp. the next write to a file,
    goes through. *)
Definition primary_reachable (w : world) : Prop :=
  fst (next_fault (primary_faults w)) = None.
Definition disk_writable (w : world) : Prop :=
  fst (next_fault (disk_faults w)) = None.

(** The next call to the remote store raises [e]. *)
Definition primary_raises (w : world) (e : exn) : Prop :=
  fst (next_fault (primary_faults w)) = Some e.

(** The world after one call to the remote store that stored nothing:
    only the schedule of its faults has advanced. *)
Definition after_primary_call (w : world) : world :=
  MkWorld (primary_rows w) (snd (next_fault (primary_faults w))) (files w)
          (disk_faults w) (uuid_calls w) (clock_reads w).

(** The files after a write to [path] that the fault [f] has struck: as
    they were, or with [path] left without a document. *)
Definition files_after_fault (fs : gmap string (list row)) (path : string)
    (f : disk_fault) : gmap string (list row) :=
  match fault_stage f with
  | AtOpen => fs
  | AfterOpen => delete path fs
  end.

(** The world after the first attempt of [habits] has drawn its
    identifier and timestamp, has been refused by the remote store and
    has failed at the write to [path] with the fault [f]. *)
Definition after_failed_write (w : world) (path : string) (f : disk_fault)
    : world :=
  MkWorld (primary_rows w) (snd (next_fault (primary_faults w)))
          (files_after_fault (files w) path f)
          (snd (next_fault (disk_faults w)))
          (S (uuid_calls w)) (S (clock_reads w)).

(* ===================================================================== *)
(** ** Sample inputs                                                     *)
(* ===================================================================== *)

(** A manager after a successful [load_models]. *)
Definition loaded_manager : ModelManager :=
  MkModelManager (Some (MkEstimator true (fun _ => Returned 0)))
                 (Some (MkEstimator true (fun _ => Returned 62))) true.

Definition scan_inside : gmap string pyval :=
  stress_features "neutral" 0 "fair" 0 0.

(** The angry scan of the specification's end-to-end example. *)
Definition scan_angry : gmap string pyval :=
  stress_features "angry" 0.5 "poor" 0.05 0.2.

(** Three stored scans, one of them without timestamp. *)
Definition scan_row (t : string) (n : Z) : gmap string pyval :=
  <["scanned_at" := VStr t]> (<["id" := VInt n]> ∅).
Definition scan_row_undated (n : Z) : gmap string pyval :=
  <["id" := VInt n]> ∅.
Definition three_scans : list (gmap string pyval) :=
  [scan_row "2024-01-01T10:00:00+00:00" 1; scan_row_undated 2;
   scan_row "2024-03-01T10:00:00+00:00" 3].

Definition world_with_scans : world :=
  MkWorld [] [] (<[Offline.scans_file Offline.offline_storage := three_scans]> ∅)
          [] 0 0.

Definition sample_env : env :=
  MkEnv (fun n => if (n =? 0)%nat then "id-0" else "id-1")
        (fun _ => "2024-05-01T12:00:00+00:00")
        (fun _ _ _ => [])
        (fun _ => None).

Definition sample_submission : HabitSubmission :=
  MkHabitSubmission "user-1" 30 7 8 6 2 true 3 "high" false.

Definition connect_error : exn :=
  MkExn "ConnectError" "[Errno 11001] getaddrinfo failed".
Definition constraint_violation : exn :=
  MkExn "APIError" "duplicate key value violates unique constraint".

Definition world_reachable : world := MkWorld [] [] ∅ [] 0 0.
Definition world_primary_down : world :=
  MkWorld [] [Some connect_error] ∅ [] 0 0.
Definition world_primary_rejects : world :=
  MkWorld [] [Some constraint_violation] ∅ [] 0 0.

(** The remote store is down and the first write to a file fails: with
    an error [open] raises, resp. with a timeout after [open]. *)
Definition permission_denied : exn :=
  MkExn "PermissionError" "[Errno 13] Permission denied: 'offline_data/habits.json'".
Definition write_timeout : exn :=
  MkExn "TimeoutError" "[Errno 110] Connection timed out".
Definition world_disk_denied : world :=
  MkWorld [] [Some connect_error] ∅
          [Some (MkDiskFault permission_denied AtOpen)] 0 0.
Definition world_disk_timeout : world :=
  MkWorld [] [Some connect_error] ∅
          [Some (MkDiskFault write_timeout AfterOpen)] 0 0.

(* ===================================================================== *)
(** ** The remaining operations of the fallback store                    *)
(* ===================================================================== *)

Module OfflineMore.

Import Offline.

(** [user.get("email") == email] for a string [email]. *)
Definition has_email (email : string) (user : row) : bool :=
  bool_decide (dict_get_none user "email" = VStr email).

(** [get_user_by_email]: the first stored user with that email. *)
Definition get_user_by_email (self : OfflineStorage) (email : string)
    : M (option row) :=
  users <- _read_file (users_file self) ;;
  ret (List.find (has_email email) users).

Definition create_user (self : OfflineStorage) (user_data : row) : M bool :=
  users <- _read_file (users_file self) ;;
  let users := users ++ [user_data] in
  _write_file (users_file self) users ;;;
  ret true.

(** The loop of [update_user]: [user.update(updates)] on the first user
    with that email, [None] when the loop ends without a match. *)
Fixpoint update_first (email : string) (updates : row) (users : list row)
    : option (list row) :=
  match users with
  | [] => None
  | user :: rest =>
      if has_email email user then Some ((updates ∪ user) :: rest)
      else option_map (cons user) (update_first email updates rest)
  end.

Definition update_user (self : OfflineStorage) (email : string) (updates : row)
    : M bool :=
  users <- _read_file (users_file self) ;;
  match update_first email updates users with
  | Some users => _write_file (users_file self) users ;;; ret true
  | None => ret false
  end.

(** [get_latest_scan]: [scans[0] if scans else None]. *)
Definition get_latest_scan (self : OfflineStorage) : M (option row) :=
  scans <- get_scans self 1 ;;
  ret (head scans).

End OfflineMore.

(* ===================================================================== *)
(** ** The remaining handlers of [app.py]                                *)
(* ===================================================================== *)

(** [s * n] on a string. *)
Fixpoint string_repeat (s : string) (n : nat) : string :=
  match n with
  | O => ""
  | S n => s +:+ string_repeat s n
  end.

(** [v * 100]: numbers multiply ([bool] as [int]), a string is repeated,
    [None] raises. *)
Definition py_mul_100 (v : pyval) : outcome pyval :=
  match v with
  | VNone => Raised (TypeError "unsupported operand type(s) for *")
  | VBool b => Returned (VInt (if b then 100 else 0))
  | VInt z => Returned (VInt (z * 100))
  | VFloat q => Returned (VFloat (q * 100))
  | VStr s => Returned (VStr (string_repeat s 100))
  end.

(** [0 + v] and the following additions of [sum]: numbers only. *)
Fixpoint py_sum_values (acc : Q) (l : list pyval) : outcome Q :=
  match l with
  | [] => Returned acc
  | v :: rest =>
      match as_num v with
      | Some q => py_sum_values (acc + q) rest
      | None => Raised (TypeError "unsupported operand type(s) for +")
      end
  end.

(** The answer of [POST /scan]: [{"success": True, "data": ..}] or
    [{"success": False, "message": "Scan failed", "error": ..}]. *)
Inductive scan_reply : Type :=
  | ScanSuccess (data : row)
  | ScanFailure (message error : string).

Definition HTTPException_500 (detail : string) : exn :=
  MkExn "HTTPException" detail.

Module AppMore.

Section Handlers.

Variable E : env.
Variable model_manager : ModelManager.

(** Lines 415-432 of [scan]: the data of the response. *)
Definition scan_response_data (features : row) (prediction : stress_result)
    (scan_id scanned_at : string) : row :=
  <["id" := VStr scan_id]>
  (<["emotion" := dict_get features "emotion" (VStr "neutral")]>
  (<["emotion_confidence" := dict_get features "emotion_confidence" (VFloat 0.5)]>
  (<["mouth_open" := dict_get features "mouth_open" (VFloat 0)]>
  (<["eyebrow_raise" := dict_get features "eyebrow_raise" (VFloat 0)]>
  (<["jaw_clench_score" := dict_get features "jaw_clench_score" (VFloat 0)]>
  (<["posture_quality" := dict_get features "posture_quality" (VStr "unknown")]>
  (<["slouch_score" := dict_get features "slouch_score" (VFloat 0)]>
  (<["head_tilt_angle" := dict_get features "head_tilt_angle" (VFloat 0)]>
  (<["shoulder_alignment_diff" := dict_get features "shoulder_alignment_diff" (VFloat 0)]>
  (<["spine_curve_ratio" := dict_get features "spine_curve_ratio" (VFloat 0)]>
  (<["pose_confidence" := dict_get features "pose_confidence" (VFloat 0)]>
  (<["image_url" := VStr ("/static/scans/" +:+ scan_id +:+ ".jpg")]>
  (<["scanned_at" := VStr scanned_at]>
  (<["stressPrediction" := VStr (stress_prediction prediction)]>
  (<["stressConfidence" := VFloat (stress_confidence prediction)]> ∅))))))))))))))).

(** Lines 437-441: the row for the table, without the prediction. *)
Definition scan_entry (response_data : row) (user_id : string) : row :=
  delete "stressConfidence"
    (delete "stressPrediction" (<["user_id" := VStr user_id]> response_data)).

(** Lines 376-452: the [try] block of [scan].  [analysis] is what reading
    the upload, decoding it and [stress_analyzer.extract_features] give
    (the features, or the error one of them raises); [save_fault] is the
    error that creating the directory and writing the image raise, if
    any.  A failing insert is reported and otherwise ignored. *)
Definition scan_try (analysis : outcome row) (save_fault : option exn)
    (user_id_form : option string) : M scan_reply :=
  let user_id :=
    match user_id_form with
    | Some u => if String.eqb u "" then None else Some u
    | None => None
    end in
  features <- lift analysis ;;
  let prediction := predict_stress model_manager features in
  scan_id <- uuid4 E ;;
  match save_fault with Some e => raise e | None => ret tt end ;;;
  scanned_at <- iso_now E ;;
  let response_data := scan_response_data features prediction scan_id scanned_at in
  match user_id with
  | Some u =>
      try_except (supabase_insert "stress_scan" (scan_entry response_data u))
                 (fun db_error => ret tt)
  | None => ret tt
  end ;;;
  ret (ScanSuccess response_data).

(** [POST /scan] *)
Definition scan (analysis : outcome row) (save_fault : option exn)
    (user_id_form : option string) : M scan_reply :=
  try_except (scan_try analysis save_fault user_id_form)
             (fun e => ret (ScanFailure "Scan failed" (exn_msg e))).

(** One entry of the list [get_habits] answers with. *)
Definition habit_entry (total : nat) (avg_sleep : pyval) (habit : row)
    : outcome row :=
  obind (dict_getitem habit "id") (fun id =>
  obind (dict_getitem habit "created_at") (fun created_at =>
  Returned
    (<["id" := id]>
    (<["sleepHours" := dict_get_none habit "sleep_hours"]>
    (<["exerciseMinutes" := dict_get_none habit "exercise"]>
    (<["waterIntake" := dict_get_none habit "water_intake"]>
    (<["socialInteraction" := dict_get_none habit "social_interaction"]>
    (<["timestamp" := created_at]>
    (<["totalHabits" := VInt (Z.of_nat total)]>
    (<["avgSleep" := avg_sleep]> ∅)))))))))).

(** The list comprehension: the first entry that raises ends it. *)
Fixpoint habit_entries (total : nat) (avg_sleep : pyval) (habits_data : list row)
    : outcome (list row) :=
  match habits_data with
  | [] => Returned []
  | habit :: rest =>
      obind (habit_entry total avg_sleep habit) (fun entry =>
      obind (habit_entries total avg_sleep rest) (fun entries =>
      Returned (entry :: entries)))
  end.

(** Lines 595-627: the [try] block of [get_habits]. *)
Definition get_habits_try (limit : Z) : M App.scans_response :=
  habits_data <-
    try_except
      (supabase_select E "habits" "created_at" limit)
      (fun db_error =>
         if is_network_error db_error then
           Offline.get_habits Offline.offline_storage limit
         else raise db_error) ;;
  total_sleep <-
    lift (if bool_decide (habits_data = []) then Returned 0
          else py_sum_values 0
                 (map (fun h => dict_get h "sleep_hours" (VInt 0)) habits_data)) ;;
  let avg_sleep :=
    if bool_decide (habits_data = []) then VInt 0
    else VFloat (total_sleep / nat_to_Q (length habits_data)) in
  entries <- lift (habit_entries (length habits_data) avg_sleep habits_data) ;;
  ret (App.MkScansResponse true entries).

(** [GET /api/habits].  [is_HTTPException e] stands for
    [isinstance(e, HTTPException)], which the handler lets through. *)
Definition get_habits (is_HTTPException : exn -> bool) (limit : Z)
    : M App.scans_response :=
  try_except
    (get_habits_try limit)
    (fun e =>
       if is_HTTPException e then raise e
       else ret (App.MkScansResponse true [])).

(** Lines 657-687 of [get_latest_scan]: the answer for one row. *)
Definition latest_scan_data (scan_data : row) : outcome row :=
  let features := App.scan_features scan_data in
  let prediction := predict_stress model_manager features in
  obind (dict_getitem scan_data "id") (fun id =>
  obind (dict_getitem scan_data "emotion") (fun emotion =>
  obind (dict_getitem scan_data "emotion_confidence") (fun conf =>
  obind (dict_getitem scan_data "jaw_clench_score") (fun jaw =>
  obind (py_mul_100 jaw) (fun jaw_tension =>
  let posture_value : Q :=
    if decide (dict_get_none scan_data "posture_quality" = VStr "good")
    then 100 else 30 in
  let overall : Q :=
    if String.eqb (stress_prediction prediction) "low" then 20
    else if String.eqb (stress_prediction prediction) "medium" then 50
    else 80 in
  obind (dict_getitem scan_data "scanned_at") (fun scanned_at =>
  Returned
    (<["id" := id]>
    (<["emotion" := emotion]>
    (<["emotionConfidence" := conf]>
    (<["jawTension" := jaw_tension]>
    (<["postureQuality" := VFloat posture_value]>
    (<["stressPrediction" := VStr (stress_prediction prediction)]>
    (<["stressConfidence" := VFloat (stress_confidence prediction)]>
    (<["overallStress" := VFloat overall]>
    (<["timestamp" := scanned_at]>
    (<["imageUrl" := dict_get_none scan_data "image_url"]> ∅)))))))))))))))).

(** [GET /api/latest-scan]: [None] stands for ["data": None]. *)
Definition get_latest_scan : M (option row) :=
  try_except
    (rows <- supabase_select E "stress_scan" "scanned_at" 1 ;;
     match rows with
     | [] => ret None
     | scan_data :: _ =>
         data <- lift (latest_scan_data scan_data) ;;
         ret (Some data)
     end)
    (fun e => raise (HTTPException_500 "Failed to fetch latest scan")).

End Handlers.

End AppMore.

(* ===================================================================== *)
(** ** Recommendations: [ml_model.HealthRiskPredictor]                   *)
(* ===================================================================== *)

(** [v < c] for an integer constant [c]. *)
Definition py_lt_const (v : pyval) (c : Q) : outcome bool :=
  match as_num v with
  | Some q => Returned (Qlt_bool q c)
  | None => Raised (TypeError "'<' not supported between instances")
  end.

(** [_generate_recommendations] *)
Definition _generate_recommendations (risk_level : string) (input_data : row)
    : outcome (list string) :=
  let recommendations : list string :=
    if String.eqb risk_level "high" then
      ["Consider consulting a healthcare professional soon.";
       "Practice stress management techniques daily."]%string
    else if String.eqb risk_level "medium" then
      ["Monitor your stress levels regularly.";
       "Maintain a healthy lifestyle balance."]%string
    else ["Keep up with your healthy habits!"]%string in
  obind (py_lt_const (dict_get input_data "sleep_quality" (VInt 5)) 5) (fun c =>
  let recommendations :=
    if c then recommendations
              ++ ["Aim for 7-9 hours of quality sleep each night."]%string
    else recommendations in
  obind (py_lt_const (dict_get input_data "exercise_frequency" (VInt 0)) 3) (fun c =>
  let recommendations :=
    if c then recommendations
              ++ ["Try to exercise at least 3 times a week."]%string
    else recommendations in
  obind (py_lt_const (dict_get input_data "diet_quality" (VInt 5)) 5) (fun c =>
  let recommendations :=
    if c then recommendations
              ++ ["Consider improving your diet with more whole foods and vegetables."]%string
    else recommendations in
  obind (py_lt_const (dict_get input_data "social_support" (VInt 5)) 5) (fun c =>
  let recommendations :=
    if c then recommendations
              ++ ["Spend more time with friends and family for better social support."]%string
    else recommendations in
  Returned recommendations)))).

(* ===================================================================== *)
(** ** Notions of the further properties                                 *)
(* ===================================================================== *)

(** [needle in hay] on strings. *)
Definition substring_of (needle hay : string) : Prop :=
  exists pre post, hay = pre +:+ needle +:+ post.

(** The records whose sort key is the timestamp [t]. *)
Definition dated (col t : string) (r : gmap string pyval) : Prop :=
  timestamp col r = t.
Global Instance dated_dec col t r : Decision (dated col t r).
Proof. unfold dated. apply _. Defined.

(** The keys the scoring rules of [predict_stress] read. *)
Definition scoring_features : list string :=
  ["emotion"; "jaw_clench_score"; "posture_quality"; "mouth_open";
   "eyebrow_raise"]%string.

(** A submission with its caffeine flag replaced. *)
Definition with_caffeine (data : HabitSubmission) (flag : bool) : HabitSubmission :=
  MkHabitSubmission (user_id data) (age data) (sleep_hours data) (work_hours data)
    (screen_time data) (water_intake data) (exercise data) (meals_per_day data)
    (social_interaction data) flag.

(** The entry of one row of [get_scans], if formatting it returns. *)
Definition format_scan_opt (E : env) (mm : ModelManager) (scan : gmap string pyval)
    : option (gmap string pyval) :=
  match App.format_scan E mm scan with
  | Returned entry => Some entry
  | Raised _ => None
  end.

(** [user_id] of [scan]: the form field when it is truthy. *)
Definition user_of (user_id_form : option string) : option string :=
  match user_id_form with
  | Some u => if String.eqb u "" then None else Some u
  | None => None
  end.

(** [h.get("sleep_hours", 0)] as a number. *)
Definition sleep_of (h : gmap string pyval) : Q :=
  default 0 (as_num (dict_get h "sleep_hours" (VInt 0))).

(** A row [get_habits] can format: both subscripted keys are there and
    the sleep hours add up. *)
Definition habit_row_ok (h : gmap string pyval) : Prop :=
  is_Some (h !! "id") /\ is_Some (h !! "created_at") /\
  is_Some (as_num (dict_get h "sleep_hours" (VInt 0))).

(** [isinstance(e, HTTPException)] holds of [HTTPException]s only. *)
Definition not_http (is_HTTPException : exn -> bool) : Prop :=
  forall e, is_HTTPException e = true -> exn_type e = "HTTPException"%string.

(** The sentences [_generate_recommendations] starts with. *)
Definition risk_recommendations (risk_level : string) : list string :=
  if String.eqb risk_level "high" then
    ["Consider consulting a healthcare professional soon.";
     "Practice stress management techniques daily."]%string
  else if String.eqb risk_level "medium" then
    ["Monitor your stress levels regularly.";
     "Maintain a healthy lifestyle balance."]%string
  else ["Keep up with your healthy habits!"]%string.

(** [success] of the response of a call that returned. *)
Definition success_of (o : outcome HabitResponse) : bool :=
  match o with
  | Returned r => success r
  | Raised _ => false
  end.

(** The value under [key] is a number, or the key is absent. *)
Definition numeric_or_absent (input_data : gmap string pyval) (key : string) : Prop :=
  input_data !! key = None \/ exists v q, input_data !! key = Some v /\ as_num v = Some q.

(* ===================================================================== *)
(** ** Further sample inputs                                             *)
(* ===================================================================== *)

(** Two stored users. *)
Definition user_row (email name : string) : gmap string pyval :=
  <["email" := VStr email]> (<["full_name" := VStr name]> ∅).
Definition world_with_users : world :=
  MkWorld [] []
    (<[Offline.users_file Offline.offline_storage :=
         [user_row "ann@example.org" "Ann"; user_row "bob@example.org" "Bob"]]> ∅)
    [] 0 0.

(** Habit rows as the table returns them, one of them without [id]. *)
Definition habit_row (id t : string) (sleep : Q) : gmap string pyval :=
  <["id" := VStr id]>
  (<["created_at" := VStr t]> (<["sleep_hours" := VFloat sleep]> ∅)).
Definition habit_row_no_id (t : string) (sleep : Q) : gmap string pyval :=
  <["created_at" := VStr t]> (<["sleep_hours" := VFloat sleep]> ∅).
Definition two_habits : list (gmap string pyval) :=
  [habit_row "h-2" "2024-03-02T08:00:00+00:00" 8;
   habit_row "h-1" "2024-03-01T08:00:00+00:00" 6].
Definition broken_habits : list (gmap string pyval) :=
  [habit_row "h-2" "2024-03-02T08:00:00+00:00" 8;
   habit_row_no_id "2024-03-01T08:00:00+00:00" 6].

(** The sample environment with a [habits] table that holds [rows]. *)
Definition env_with_habits (rows : list (gmap string pyval)) : env :=
  MkEnv (uuid4_at sample_env) (utcnow_at sample_env)
        (fun table _ _ => if String.eqb table "habits" then rows else [])
        (float_of_string sample_env).

(** The remote store is down, the habits file holds two records, and
    the first write to it times out after [open]. *)
Definition world_torn_write : world :=
  MkWorld [] [Some connect_error]
    (<[Offline.habits_file Offline.offline_storage := two_habits]> ∅)
    [Some (MkDiskFault write_timeout AfterOpen)] 0 0.

(** [isinstance(e, HTTPException)], read off the name of the class. *)
Definition is_HTTPException_by_name (e : exn) : bool :=
  String.eqb (exn_type e) "HTTPException".

(** The remote client raises an [HTTPException]. *)
Definition service_unavailable : exn :=
  MkExn "HTTPException" "503: Service Unavailable".
Definition world_primary_http : world :=
  MkWorld [] [Some service_unavailable] ∅ [] 0 0.

(** Stored scans of which the first and the third have one timestamp. *)
Definition tied_scans : list (gmap string pyval) :=
  [scan_row "2024-01-01T10:00:00+00:00" 1;
   scan_row "2024-03-01T10:00:00+00:00" 2;
   scan_row "2024-01-01T10:00:00+00:00" 3].
Definition world_with_ties : world :=
  MkWorld [] [] (<[Offline.scans_file Offline.offline_storage := tied_scans]> ∅)
          [] 0 0.

(** A stored scan with every column the handlers read, and one whose
    confidence column holds text that is no number. *)
Definition full_scan_row : gmap string pyval :=
  <["id" := VStr "scan-1"]>
  (<["scanned_at" := VStr "2024-03-01T10:00:00+00:00"]>
  (<["emotion_confidence" := VFloat 0.8]>
  (stress_features "sad" 0.2 "fair" 0.05 0))).
Definition unreadable_scan_row : gmap string pyval :=
  <["emotion_confidence" := VStr "n/a"]> full_scan_row.

(* ===================================================================== *)
(** * Properties                                                         *)
(* ===================================================================== *)

(** ** Arithmetic helpers *)

Lemma Qlt_bool_true (x y : Q) : Qlt_bool x y = true <-> x < y.
Proof.
  unfold Qlt_bool. rewrite negb_true_iff.
  split; intros H.
  - apply Qnot_le_lt. intros Hle. apply Qle_bool_iff in Hle. congruence.
  - destruct (Qle_bool y x) eqn:Hb; [|reflexivity].
    apply Qle_bool_iff in Hb. exfalso. apply (Qlt_not_le _ _ H Hb).
Qed.

Lemma Qlt_bool_false (x y : Q) : Qlt_bool x y = false <-> y <= x.
Proof.
  unfold Qlt_bool. rewrite negb_false_iff. apply Qle_bool_iff.
Qed.

Lemma Qlt_bool_spec (x y : Q) :
  (Qlt_bool x y = true /\ x < y) \/ (Qlt_bool x y = false /\ y <= x).
Proof.
  destruct (Qlt_bool x y) eqn:Hb.
  - left. split; [reflexivity | by apply Qlt_bool_true].
  - right. split; [reflexivity | by apply Qlt_bool_false].
Qed.

(** ** Scoring engine *)

Lemma emotion_table_spec (label : pyval) :
  table_get emotion_scores label 30 = spec_emotion_term label.
Proof.
  unfold spec_emotion_term, table_get, emotion_scores.
  destruct label as [| b | z | q | s]; try reflexivity.
  repeat (case_decide;
          [ simplify_eq; reflexivity
          | rewrite lookup_insert_ne by congruence ]).
  reflexivity.
Qed.

Lemma posture_table_spec (label : pyval) :
  table_get posture_scores label 15 = spec_posture_term label.
Proof.
  unfold spec_posture_term, table_get, posture_scores.
  destruct label as [| b | z | q | s]; try reflexivity.
  repeat (case_decide;
          [ simplify_eq; reflexivity
          | rewrite lookup_insert_ne by congruence ]).
  destruct (decide (s = "unknown"%string)) as [->|Hne]; [reflexivity|].
  rewrite lookup_insert_ne by congruence. reflexivity.
Qed.

Lemma classify_stress_bucket (s : Q) :
  stress_prediction (classify_stress s) = spec_bucket s.
Proof.
  unfold classify_stress, spec_bucket.
  destruct (Qlt_bool_spec s 35) as [[-> H35]|[-> H35]];
    destruct (Qlt_le_dec s 35) as [H35'|H35']; simpl; try reflexivity;
    try (exfalso; apply (Qlt_not_le _ _ H35); assumption).
  - exfalso. apply (Qlt_not_le _ _ H35'). assumption.
  - destruct (Qlt_bool_spec s 60) as [[-> H60]|[-> H60]];
      destruct (Qlt_le_dec s 60) as [H60'|H60']; simpl; try reflexivity;
      exfalso; eapply Qlt_not_le; eassumption.
Qed.

Lemma stress_score_formula (fd : gmap string pyval) (jaw mouth brow : Q) :
  feature_num fd "jaw_clench_score" = Some jaw ->
  feature_num fd "mouth_open" = Some mouth ->
  feature_num fd "eyebrow_raise" = Some brow ->
  exists s,
    stress_score fd = Returned s /\
    s == spec_stress_score (dict_get fd "emotion" (VStr "neutral")) jaw
           (dict_get fd "posture_quality" (VStr "unknown")) mouth brow.
Proof.
  unfold feature_num. intros Hjaw Hmouth Hbrow.
  unfold stress_score, py_mul_100_03, py_gt_const.
  rewrite Hjaw, Hmouth, Hbrow. simpl.
  rewrite emotion_table_spec, posture_table_spec.
  eexists. split; [reflexivity|].
  unfold spec_stress_score.
  destruct (Qlt_bool_spec 0.03 mouth) as [[-> Hm]|[-> Hm]];
    destruct (Qlt_le_dec 0.03 mouth) as [Hm'|Hm'];
    try (exfalso; eapply Qlt_not_le; eassumption);
    destruct (Qlt_bool_spec 0.1 brow) as [[-> Hb]|[-> Hb]];
    destruct (Qlt_le_dec 0.1 brow) as [Hb'|Hb'];
    try (exfalso; eapply Qlt_not_le; eassumption);
    ring.
Qed.

(** After a successful [load_models] the guard of [predict_stress] passes
    exactly when the object read from the stress pickle is truthy. *)
Lemma load_models_ready (self : ModelManager)
    (stress_pkl health_pkl : option (outcome estimator)) :
  fst (load_models self stress_pkl health_pkl) = true ->
  (stress_model_ready (snd (load_models self stress_pkl health_pkl)) <->
   exists b, stress_pkl = Some (Returned b) /\ truthy b = true).
Proof.
  unfold load_models, stress_model_ready.
  destruct stress_pkl as [[b|e]|]; try discriminate.
  destruct health_pkl as [[h|e]|]; try discriminate.
  intros _. cbn. split.
  - intros [_ Hb]. by exists b.
  - intros (b' & [= <-] & Hb). by split.
Qed.

Lemma predict_stress_ready (self : ModelManager) (fd : gmap string pyval) (s : Q) :
  stress_model_ready self ->
  stress_score fd = Returned s ->
  predict_stress self fd = classify_stress s.
Proof.
  intros [Hflag Hbundle] Hs. unfold predict_stress.
  rewrite Hflag, Hbundle, Hs. reflexivity.
Qed.

(** C1.  With the models loaded, the score [predict_stress] computes for a
    feature mapping whose numeric features are numbers is the additive
    formula of the specification (emotion term, jaw tension times 100
    times 0.3, posture term, 5 for a mouth opening above 0.03, 5 for an
    eyebrow raise above 0.1, absent keys taking their defaults), and the
    returned label is "low" below 35, "medium" from 35 to below 60 and
    "high" from 60 on; a happy face with good posture and all numeric
    features at 0 scores 15 and is labelled "low". *)
Theorem predict_stress_additive_formula
    (self : ModelManager) (fd : gmap string pyval) (jaw mouth brow : Q) :
  stress_model_ready self ->
  feature_num fd "jaw_clench_score" = Some jaw ->
  feature_num fd "mouth_open" = Some mouth ->
  feature_num fd "eyebrow_raise" = Some brow ->
  (exists s,
     stress_score fd = Returned s /\
     s == spec_stress_score (dict_get fd "emotion" (VStr "neutral")) jaw
            (dict_get fd "posture_quality" (VStr "unknown")) mouth brow /\
     predict_stress self fd = classify_stress s /\
     (s < 35 -> stress_prediction (predict_stress self fd) = "low"%string) /\
     (35 <= s -> s < 60 ->
      stress_prediction (predict_stress self fd) = "medium"%string) /\
     (60 <= s -> stress_prediction (predict_stress self fd) = "high"%string)) /\
  (exists s,
     stress_score (stress_features "happy" 0 "good" 0 0) = Returned s /\
     s == 15 /\
     stress_prediction
       (predict_stress self (stress_features "happy" 0 "good" 0 0))
     = "low"%string).
Proof.
  intros Hready Hjaw Hmouth Hbrow. split.
  - destruct (stress_score_formula fd jaw mouth brow Hjaw Hmouth Hbrow)
      as (s & Hs & Hformula).
    exists s. rewrite (predict_stress_ready self fd s Hready Hs).
    rewrite classify_stress_bucket. unfold spec_bucket.
    repeat split; try assumption.
    + intros Hlt. destruct (Qlt_le_dec s 35); [reflexivity|].
      exfalso; eapply Qlt_not_le; eassumption.
    + intros Hge Hlt. destruct (Qlt_le_dec s 35) as [Hlt'|_].
      * exfalso; eapply Qlt_not_le; eassumption.
      * destruct (Qlt_le_dec s 60); [reflexivity|].
        exfalso; eapply Qlt_not_le; eassumption.
    + intros Hge. destruct (Qlt_le_dec s 35) as [Hlt'|_].
      * exfalso. apply (Qlt_not_le _ _ Hlt'). apply Qle_trans with 60; [|assumption].
        discriminate.
      * destruct (Qlt_le_dec s 60) as [Hlt'|_]; [|reflexivity].
        exfalso; eapply Qlt_not_le; eassumption.
  - eexists. split; [vm_compute; reflexivity|]. split; [reflexivity|].
    erewrite predict_stress_ready; [|exact Hready|vm_compute; reflexivity].
    vm_compute. reflexivity.
Qed.

Lemma loaded_manager_ready : stress_model_ready loaded_manager.
Proof. split; reflexivity. Defined.

Lemma predict_stress_additive_formula_witness :
  exists s,
    stress_score (stress_features "sad" 0.2 "fair" 0.05 0) = Returned s /\
    s == 76 /\
    stress_prediction
      (predict_stress loaded_manager (stress_features "sad" 0.2 "fair" 0.05 0))
    = "high"%string.
Proof.
  destruct (predict_stress_additive_formula loaded_manager
              (stress_features "sad" 0.2 "fair" 0.05 0) 0.2 0.05 0
              loaded_manager_ready eq_refl eq_refl eq_refl)
    as [(s & Hs & Hformula & _ & _ & _ & Hhigh) _].
  exists s. split; [exact Hs|].
  assert (Hval : s == 76) by (rewrite Hformula; reflexivity).
  split; [exact Hval|].
  apply Hhigh. rewrite Hval. discriminate.
Defined.

(** *** Confidence *)




















(** *** Degraded answers *)

(** C10.  When the flag [models_loaded] is off or the bundle is missing,
    [predict_stress] answers "unknown" with confidence 0.0 whatever the
    features are; when the models are loaded and the scoring raises, it
    answers "medium" with confidence 0.0.  So an answer that is one of
    "low", "medium", "high" with a confidence of at least 0.70 is only
    given with the bundle loaded (and a scoring that did not raise). *)
Theorem predict_stress_degraded (self : ModelManager) (fd : gmap string pyval) :
  (models_loaded self = false \/ stress_model_bundle self = None ->
   predict_stress self fd = MkStressResult "unknown" 0) /\
  (stress_model_ready self ->
   forall e, stress_score fd = Raised e ->
   predict_stress self fd = MkStressResult "medium" 0) /\
  (stress_prediction (predict_stress self fd)
     ∈ ["low"; "medium"; "high"]%string ->
   0.70 <= stress_confidence (predict_stress self fd) ->
   stress_model_ready self /\ exists s, stress_score fd = Returned s).
Proof.
  split; [|split].
  - intros [Hflag|Hbundle]; unfold predict_stress.
    + rewrite Hflag. reflexivity.
    + rewrite Hbundle. rewrite orb_comm. reflexivity.
  - intros [Hflag Hbundle] e He. unfold predict_stress.
    rewrite Hflag, Hbundle, He. reflexivity.
  - unfold predict_stress, stress_model_ready.
    destruct (models_loaded self); simpl.
    + destruct (py_bool (stress_model_bundle self)); simpl.
      * destruct (stress_score fd) as [s|e]; simpl.
        -- intros _ _. split; [split; reflexivity | by eexists].
        -- intros _ Hc. exfalso. revert Hc. vm_compute. intros H. by apply H.
      * intros _ Hc. exfalso. revert Hc. vm_compute. intros H. by apply H.
    + intros _ Hc. exfalso. revert Hc. vm_compute. intros H. by apply H.
Qed.

Lemma predict_stress_degraded_witness :
  predict_stress ModelManager_init scan_angry = MkStressResult "unknown" 0 /\
  predict_stress loaded_manager (<["jaw_clench_score" := VNone]> scan_angry)
    = MkStressResult "medium" 0.
Proof.
  split.
  - apply (predict_stress_degraded ModelManager_init scan_angry).
    left. reflexivity.
  - apply (proj1 (proj2 (predict_stress_degraded loaded_manager
                           (<["jaw_clench_score" := VNone]> scan_angry)))
             loaded_manager_ready
             (TypeError "unsupported operand type(s) for *")).
    vm_compute. reflexivity.
Defined.

(** ** Trend classification *)

Lemma mean_take_half (l : list Q) :
  mean (take (length l / 2) l)
  = py_sum (take (length l / 2) l) / nat_to_Q (length l / 2).
Proof.
  unfold mean. rewrite length_take.
  replace (Nat.min (length l / 2) (length l)) with (length l / 2)%nat; [reflexivity|].
  symmetry. apply Nat.min_l. apply Nat.Div0.div_le_upper_bound. lia.
Qed.

Lemma mean_drop_half (l : list Q) :
  mean (drop (length l / 2) l)
  = py_sum (drop (length l / 2) l) / nat_to_Q (length l - length l / 2).
Proof. unfold mean. rewrite length_drop. reflexivity. Qed.

(** C3, as stated, fails on its third example: the halves of
    [50; 51; 49; 50] have means 50.5 and 49.5, which differ by 1.0, not
    by less than the threshold 0.5; the answer is "decreasing". *)
Lemma trend_50_51_49_50_is_not_stable :
  calculate_stress_trend [50; 51; 49; 50] <> "stable"%string.
Proof. vm_compute. discriminate. Qed.

(** C3, amended.  [calculate_stress_trend] answers "stable" for fewer
    than two scores.  Otherwise it splits the list by count into the
    first [len // 2] scores and the rest and compares the two means: a
    difference below 0.5 in absolute value is "stable", otherwise the
    answer is "increasing" when the second mean is the greater one and
    "decreasing" when it is the smaller one.  Three lows then three highs
    are "increasing", the reverse is "decreasing", a single score is
    "stable", and [50; 51; 49; 50] is "decreasing". *)
Theorem calculate_stress_trend_spec (l : list Q) (x : Q) :
  let first := mean (take (length l / 2) l) in
  let second := mean (drop (length l / 2) l) in
  ((length l < 2)%nat -> calculate_stress_trend l = "stable"%string) /\
  ((2 <= length l)%nat ->
   (Qabs (second - first) < 0.5 -> calculate_stress_trend l = "stable"%string) /\
   (0.5 <= Qabs (second - first) -> 0 < second - first ->
    calculate_stress_trend l = "increasing"%string) /\
   (0.5 <= Qabs (second - first) -> second - first < 0 ->
    calculate_stress_trend l = "decreasing"%string)) /\
  calculate_stress_trend [10; 10; 10; 80; 80; 80] = "increasing"%string /\
  calculate_stress_trend [80; 80; 80; 10; 10; 10] = "decreasing"%string /\
  calculate_stress_trend [50; 51; 49; 50] = "decreasing"%string /\
  calculate_stress_trend [x] = "stable"%string.
Proof.
  intros first second. subst first second.
  rewrite mean_take_half, mean_drop_half.
  split; [|split; [|repeat split; reflexivity]].
  - intros Hlen. unfold calculate_stress_trend.
    destruct l as [|a [|b l]]; simpl in *; try reflexivity; lia.
  - intros Hlen. unfold calculate_stress_trend.
    rewrite bool_decide_eq_false_2 by (intros ->; simpl in Hlen; lia).
    replace (length l <? 2)%nat with false
      by (symmetry; apply Nat.ltb_ge; exact Hlen).
    cbn [orb].
    set (a := py_sum (take (length l / 2) l) / nat_to_Q (length l / 2)).
    set (b := py_sum (drop (length l / 2) l)
                / nat_to_Q (length l - length l / 2)).
    destruct (Qlt_bool_spec (Qabs (b - a)) 0.5) as [[-> Habs]|[-> Habs]].
    + split; [reflexivity|]. split; intros Hge; exfalso; lra.
    + split; [intros Hlt; exfalso; lra|].
      destruct (Qlt_bool_spec a b) as [[-> Hab]|[-> Hab]].
      * split; [reflexivity|]. intros _ Hneg. exfalso. lra.
      * split; [|reflexivity]. intros _ Hpos. exfalso. lra.
Qed.

Lemma calculate_stress_trend_spec_witness :
  calculate_stress_trend [] = "stable"%string /\
  calculate_stress_trend [20; 40; 60] = "increasing"%string.
Proof.
  split.
  - refine (proj1 (calculate_stress_trend_spec [] 0) _). simpl. lia.
  - refine (proj1 (proj2 (proj1 (proj2 (calculate_stress_trend_spec
                                          [20; 40; 60] 0)) _)) _ _).
    + simpl. lia.
    + vm_compute. discriminate.
    + vm_compute. reflexivity.
Defined.

(** ** Fallback store *)

(** ** Fallback store *)

Lemma string_compare_OT (s t : string) :
  String.compare s t = String_as_OT.compare s t.
Proof. revert t; induction s as [|a s IH]; intros [|b t]; simpl; try reflexivity. Qed.

Lemma string_leb_iff (a b : string) :
  String.leb a b = true <-> a = b \/ String_as_OT.lt a b.
Proof.
  unfold String.leb. rewrite string_compare_OT.
  destruct (String_as_OT.compare_spec a b) as [Heq|Hlt|Hgt].
  - split; [by left | reflexivity].
  - split; [by right | reflexivity].
  - split; [discriminate|]. intros [->|Hlt]; exfalso.
    + by apply (StrictOrder_Irreflexive b).
    + apply (StrictOrder_Irreflexive a). by etransitivity.
Qed.

Lemma string_leb_trans (a b c : string) :
  String.leb a b = true -> String.leb b c = true -> String.leb a c = true.
Proof.
  rewrite !string_leb_iff. intros [->|Hab] [->|Hbc]; auto.
  right. by etransitivity.
Qed.

Lemma string_ltb_leb (a b : string) : String.ltb a b = true -> String.leb a b = true.
Proof. unfold String.ltb, String.leb. destruct (String.compare a b); congruence. Qed.

Lemma string_ltb_false_leb (a b : string) : String.ltb a b = false -> String.leb b a = true.
Proof.
  unfold String.ltb, String.leb. rewrite (String.compare_antisym a b).
  destruct (String.compare b a); simpl; congruence.
Qed.

Lemma string_leb_empty (a : string) : String.leb a "" = true -> a = ""%string.
Proof. destruct a; [reflexivity|]. simpl. discriminate. Qed.

Section SortDesc.

Variable col : string.

Lemma key_timestamp (r : gmap string pyval) :
  timestamp_ok col r -> sort_key col r = VStr (timestamp col r).
Proof.
  unfold sort_key, dict_get, timestamp. intros [-> | [s ->]]; reflexivity.
Qed.

Lemma py_lt_keys (x y : gmap string pyval) :
  timestamp_ok col x -> timestamp_ok col y ->
  Offline.py_lt (sort_key col x) (sort_key col y)
  = Returned (String.ltb (timestamp col x) (timestamp col y)).
Proof.
  intros Hx Hy. rewrite (key_timestamp x Hx), (key_timestamp y Hy). reflexivity.
Qed.

Lemma ts_ge_trans (a b c : gmap string pyval) :
  ts_ge col a b -> ts_ge col b c -> ts_ge col a c.
Proof. unfold ts_ge. intros Hab Hbc. eapply string_leb_trans; eassumption. Qed.

Lemma insert_desc_sorted (x : gmap string pyval) (l : list (gmap string pyval)) :
  timestamp_ok col x -> Forall (timestamp_ok col) l -> StronglySorted (ts_ge col) l ->
  exists r,
    Offline.insert_desc (sort_key col) x l = Returned r /\
    r ≡ₚ x :: l /\
    StronglySorted (ts_ge col) r.
Proof.
  intros Hx. induction l as [|y rest IH]; intros Hok Hsorted.
  - exists [x]. repeat split; [reflexivity|]. repeat constructor.
  - apply Forall_cons in Hok as [Hy Hrest].
    apply StronglySorted_inv in Hsorted as [Hsrest Hall].
    cbn [Offline.insert_desc]. rewrite (py_lt_keys x y Hx Hy). cbn [obind].
    destruct (String.ltb (timestamp col x) (timestamp col y)) eqn:Hlt.
    + destruct (IH Hrest Hsrest) as (r & -> & Hperm & Hsr).
      exists (y :: r). cbn [obind]. split; [reflexivity|]. split.
      * rewrite Hperm. apply perm_swap.
      * constructor; [exact Hsr|]. rewrite Hperm. constructor; [|exact Hall].
        unfold ts_ge. by apply string_ltb_leb.
    + exists (x :: y :: rest). split; [reflexivity|]. split; [reflexivity|].
      assert (Hxy : ts_ge col x y) by (unfold ts_ge; by apply string_ltb_false_leb).
      constructor; [by constructor|]. constructor; [exact Hxy|].
      eapply Forall_impl; [exact Hall|]. intros z Hyz. by eapply ts_ge_trans.
Qed.

Lemma sort_desc_sorted (l : list (gmap string pyval)) :
  Forall (timestamp_ok col) l ->
  exists r,
    Offline.sort_desc (sort_key col) l = Returned r /\
    r ≡ₚ l /\
    StronglySorted (ts_ge col) r.
Proof.
  induction l as [|x rest IH]; intros Hok.
  - exists []. repeat split; [reflexivity|constructor].
  - apply Forall_cons in Hok as [Hx Hrest].
    destruct (IH Hrest) as (r & Hr & Hperm & Hsr).
    cbn [Offline.sort_desc]. rewrite Hr. cbn [obind].
    assert (Hokr : Forall (timestamp_ok col) r) by (by rewrite Hperm).
    destruct (insert_desc_sorted x r Hx Hokr Hsr) as (r' & Hr' & Hperm' & Hsr').
    exists r'. split; [exact Hr'|]. split; [|exact Hsr'].
    by rewrite Hperm', Hperm.
Qed.

Lemma sorted_newest_first (l : list (gmap string pyval)) :
  StronglySorted (ts_ge col) l -> newest_first col l.
Proof.
  induction 1 as [|x l Hs IH Hall]; intros i j a b Hij Hi Hj.
  - by rewrite lookup_nil in Hi.
  - destruct j as [|j]; [lia|]. destruct i as [|i]; simpl in *.
    + injection Hi as <-. by eapply Forall_lookup_1.
    + eapply IH; [|eassumption..]. lia.
Qed.

Lemma newest_first_missing_last (l : list (gmap string pyval)) :
  newest_first col l -> missing_last col l.
Proof.
  intros Hnf i j a b Hi Hj Hnone Hb.
  assert (Hta : timestamp col a = ""%string) by (unfold timestamp; by rewrite Hnone).
  destruct (Nat.lt_trichotomy i j) as [Hlt|[->|Hgt]]; [| |exact Hgt]; exfalso.
  - specialize (Hnf i j a b Hlt Hi Hj). unfold ts_ge in Hnf.
    rewrite Hta in Hnf. by apply string_leb_empty in Hnf.
  - rewrite Hi in Hj. injection Hj as <-. by rewrite Hta in Hb.
Qed.

End SortDesc.

Lemma py_slice_to_nonneg {A} (l : list A) (stop : Z) :
  (0 <= stop)%Z -> Offline.py_slice_to l stop = take (Z.to_nat stop) l.
Proof.
  intros H. unfold Offline.py_slice_to.
  destruct (0 <=? stop)%Z eqn:Hb; [reflexivity|]. apply Z.leb_gt in Hb. lia.
Qed.

Lemma recent_rows (col : string) (l : list (gmap string pyval)) (limit : Z) :
  (0 <= limit)%Z -> timestamps_ok col l ->
  exists sorted,
    Offline.sort_desc (fun x => dict_get x col (VStr "")) l = Returned sorted /\
    sorted ≡ₚ l /\
    newest_first col sorted /\
    let rows := Offline.py_slice_to sorted limit in
    rows = take (Z.to_nat limit) sorted /\
    (Z.of_nat (length rows) <= limit)%Z /\
    newest_first col rows /\
    missing_last col rows.
Proof.
  intros Hlimit Hok.
  destruct (sort_desc_sorted col l Hok) as (sorted & Hsort & Hperm & Hs).
  exists sorted. split; [exact Hsort|]. split; [exact Hperm|].
  split; [by apply sorted_newest_first|].
  cbn zeta. rewrite (py_slice_to_nonneg sorted limit Hlimit).
  split; [reflexivity|]. split; [rewrite length_take; lia|].
  assert (Hnf : newest_first col (take (Z.to_nat limit) sorted)).
  { apply sorted_newest_first.
    rewrite <- (take_drop (Z.to_nat limit) sorted) in Hs.
    by apply StronglySorted_app_1_l in Hs. }
  split; [exact Hnf|]. by apply newest_first_missing_last.
Qed.

Lemma get_scans_unfold (self : Offline.OfflineStorage) (limit : Z) (w : world) :
  Offline.get_scans self limit w
  = match Offline.sort_desc (sort_key "scanned_at")
            (stored w (Offline.scans_file self)) with
    | Returned sorted => (Returned (Offline.py_slice_to sorted limit), w)
    | Raised e => (Raised e, w)
    end.
Proof.
  unfold Offline.get_scans, Offline._read_file, bind, lift, ret, stored, sort_key.
  destruct (Offline.sort_desc _ _); reflexivity.
Qed.

Lemma get_habits_unfold (self : Offline.OfflineStorage) (limit : Z) (w : world) :
  Offline.get_habits self limit w
  = match Offline.sort_desc (sort_key "created_at")
            (stored w (Offline.habits_file self)) with
    | Returned sorted => (Returned (Offline.py_slice_to sorted limit), w)
    | Raised e => (Raised e, w)
    end.
Proof.
  unfold Offline.get_habits, Offline._read_file, bind, lift, ret, stored, sort_key.
  destruct (Offline.sort_desc _ _); reflexivity.
Qed.

(** C9, as stated, fails for a negative limit: with three scans stored,
    [get_scans(-1)] is [scans[:-1]], the two dated scans, and two records
    are more than a limit of -1. *)
Lemma fallback_recent_negative_limit :
  exists rows,
    fst (Offline.get_scans Offline.offline_storage (-1) world_with_scans)
      = Returned rows /\
    rows = [scan_row "2024-03-01T10:00:00+00:00" 3;
            scan_row "2024-01-01T10:00:00+00:00" 1] /\
    ~ (Z.of_nat (length rows) <= -1)%Z.
Proof.
  eexists. split; [|split; [reflexivity|]].
  - rewrite get_scans_unfold. vm_compute. reflexivity.
  - simpl. lia.
Qed.

(** C9, amended.  For every limit that is not negative, and stored rows
    whose timestamp is a string or is missing, [get_scans] and
    [get_habits] of the fallback store return, without changing the
    store, the first [limit] rows of a rearrangement of the stored rows
    that is sorted newest first by [scanned_at], resp. [created_at]: at
    most [limit] rows, none followed by a row with a greater timestamp,
    a missing timestamp counting as the empty string, so that rows
    without timestamp come after all rows with a non-empty one. *)
Theorem fallback_recent_sorted_and_bounded (limit : Z) (w : world) :
  (0 <= limit)%Z ->
  timestamps_ok "scanned_at" (stored w (Offline.scans_file Offline.offline_storage)) ->
  timestamps_ok "created_at" (stored w (Offline.habits_file Offline.offline_storage)) ->
  (exists rows sorted,
     Offline.get_scans Offline.offline_storage limit w = (Returned rows, w) /\
     sorted ≡ₚ stored w (Offline.scans_file Offline.offline_storage) /\
     newest_first "scanned_at" sorted /\
     rows = take (Z.to_nat limit) sorted /\
     (Z.of_nat (length rows) <= limit)%Z /\
     newest_first "scanned_at" rows /\
     missing_last "scanned_at" rows) /\
  (exists rows sorted,
     Offline.get_habits Offline.offline_storage limit w = (Returned rows, w) /\
     sorted ≡ₚ stored w (Offline.habits_file Offline.offline_storage) /\
     newest_first "created_at" sorted /\
     rows = take (Z.to_nat limit) sorted /\
     (Z.of_nat (length rows) <= limit)%Z /\
     newest_first "created_at" rows /\
     missing_last "created_at" rows).
Proof.
  intros Hlimit Hscans Hhabits. split.
  - destruct (recent_rows "scanned_at" _ limit Hlimit Hscans)
      as (sorted & Hsort & Hperm & Hnf & Hrows).
    exists (Offline.py_slice_to sorted limit), sorted.
    rewrite get_scans_unfold. unfold sort_key. rewrite Hsort.
    split; [reflexivity|]. split; [exact Hperm|]. split; [exact Hnf|]. exact Hrows.
  - destruct (recent_rows "created_at" _ limit Hlimit Hhabits)
      as (sorted & Hsort & Hperm & Hnf & Hrows).
    exists (Offline.py_slice_to sorted limit), sorted.
    rewrite get_habits_unfold. unfold sort_key. rewrite Hsort.
    split; [reflexivity|]. split; [exact Hperm|]. split; [exact Hnf|]. exact Hrows.
Qed.

Lemma three_scans_ok : timestamps_ok "scanned_at" three_scans.
Proof.
  unfold timestamps_ok, three_scans.
  constructor; [right; eexists; reflexivity|].
  constructor; [left; reflexivity|].
  constructor; [right; eexists; reflexivity|].
  constructor.
Defined.

Lemma fallback_recent_sorted_and_bounded_witness :
  exists rows,
    Offline.get_scans Offline.offline_storage 2 world_with_scans
      = (Returned rows, world_with_scans) /\
    (Z.of_nat (length rows) <= 2)%Z /\
    newest_first "scanned_at" rows.
Proof.
  destruct (fallback_recent_sorted_and_bounded 2 world_with_scans)
    as [(rows & sorted & Hget & _ & _ & _ & Hlen & Hnf & _) _].
  - lia.
  - exact three_scans_ok.
  - constructor.
  - exists rows. split; [exact Hget|]. split; [exact Hlen | exact Hnf].
Defined.

(** ** Ingestion: [habits] *)

Lemma habit_body_id E data w :
  dict_getitem (habit_body E data w) "id" = Returned (VStr (uuid4_at E (uuid_calls w))).
Proof.
  unfold dict_getitem, habit_body.
  rewrite lookup_insert_ne by discriminate. rewrite lookup_insert_eq. reflexivity.
Qed.

Ltac step :=
  cbn [primary_rows primary_faults files disk_faults uuid_calls clock_reads
       fst snd].

Ltac run_handler :=
  unfold App.habits, App.habits_try, App.habits_retry, Offline.create_habit;
  unfold try_except, bind, uuid4, iso_now, supabase_insert,
    Offline._read_file, Offline._write_file, lift, ret, raise;
  step.

Lemma habits_primary_ok E mm data w :
  primary_reachable w ->
  App.habits E mm data w
  = (Returned (MkHabitResponse true "Saved successfully"
                 (Some (uuid4_at E (uuid_calls w)))),
     MkWorld (primary_rows w ++ [("habits"%string, habit_body E data w)])
             (snd (next_fault (primary_faults w))) (files w) (disk_faults w)
             (S (uuid_calls w)) (S (clock_reads w))).
Proof.
  unfold primary_reachable. intros Hp. run_handler.
  destruct (next_fault (primary_faults w)) as [f rest]. step. cbn in Hp. subst f.
  fold (habit_body E data w). rewrite habit_body_id. reflexivity.
Qed.

Lemma habits_fallback_ok E mm data w e :
  primary_raises w e -> is_network_error e = true -> disk_writable w ->
  App.habits E mm data w
  = (Returned (MkHabitResponse true "Saved successfully"
                 (Some (uuid4_at E (uuid_calls w)))),
     MkWorld (primary_rows w) (snd (next_fault (primary_faults w)))
             (<[Offline.habits_file Offline.offline_storage :=
                  stored w (Offline.habits_file Offline.offline_storage)
                  ++ [habit_body E data w]]> (files w))
             (snd (next_fault (disk_faults w)))
             (S (uuid_calls w)) (S (clock_reads w))).
Proof.
  unfold primary_raises, disk_writable. intros Hp Hnet Hd.
  run_handler.
  destruct (next_fault (primary_faults w)) as [f rest]. cbn in Hp. subst f.
  rewrite Hnet. step.
  destruct (next_fault (disk_faults w)) as [f drest]. cbn in Hd. subst f. step.
  fold (habit_body E data w). rewrite habit_body_id. reflexivity.
Qed.

Lemma habits_permanent E mm data w e :
  primary_raises w e -> is_network_error e = false ->
  App.habits E mm data w
  = (Returned App.habits_failed,
     MkWorld (primary_rows w) (snd (next_fault (primary_faults w)))
             (files w) (disk_faults w)
             (S (uuid_calls w)) (S (clock_reads w))).
Proof.
  unfold primary_raises. intros Hp Hnet.
  run_handler.
  destruct (next_fault (primary_faults w)) as [f rest]. cbn in Hp. subst f.
  rewrite Hnet. step. rewrite Hnet. reflexivity.
Qed.

(** The state after the first attempt of [habits] has failed at the
    write to the fallback file with the fault [f]. *)
Lemma habits_fallback_fails E mm data w e f :
  primary_raises w e -> is_network_error e = true ->
  fst (next_fault (disk_faults w)) = Some f ->
  let path := Offline.habits_file Offline.offline_storage in
  let w1 := after_failed_write w path f in
  App.habits E mm data w
  = if is_network_error (fault_exn f) then
      match fst (next_fault (disk_faults w1)) with
      | None =>
          (Returned (MkHabitResponse true "Saved offline (no internet connection)"
                       (Some (uuid4_at E (uuid_calls w1)))),
           MkWorld (primary_rows w) (primary_faults w1)
                   (<[path := stored w1 path ++ [habit_body E data w1]]> (files w1))
                   (snd (next_fault (disk_faults w1)))
                   (S (uuid_calls w1)) (S (clock_reads w1)))
      | Some f2 =>
          (Returned App.habits_failed,
           MkWorld (primary_rows w) (primary_faults w1)
                   (files_after_fault (files w1) path f2)
                   (snd (next_fault (disk_faults w1)))
                   (S (uuid_calls w1)) (S (clock_reads w1)))
      end
    else (Returned App.habits_failed, w1).
Proof.
  unfold primary_raises. intros Hp Hnet Hd. cbv zeta.
  unfold after_failed_write, files_after_fault, stored.
  run_handler.
  destruct (next_fault (primary_faults w)) as [f0 rest]. cbn in Hp. subst f0.
  rewrite Hnet. step.
  destruct (next_fault (disk_faults w)) as [f0 drest]. cbn in Hd. subst f0. step.
  destruct (is_network_error (fault_exn f)) eqn:Hnet2; [|reflexivity].
  step.
  destruct (next_fault drest) as [[f2|] rest2] eqn:Hd2; step.
  - reflexivity.
  - set (w1 := MkWorld (primary_rows w) rest
                 match fault_stage f with
                 | AtOpen => files w
                 | AfterOpen =>
                     delete (Offline.habits_file Offline.offline_storage) (files w)
                 end drest (S (uuid_calls w)) (S (clock_reads w))).
    change (uuid4_at E (S (uuid_calls w))) with (uuid4_at E (uuid_calls w1)).
    change (utcnow_at E (S (clock_reads w))) with (utcnow_at E (clock_reads w1)).
    fold (habit_body E data w1). rewrite habit_body_id. reflexivity.
Qed.

Lemma habit_body_created_at (E : env) (data : HabitSubmission) (w : world) :
  habit_body E data w !! "created_at" = Some (VStr (utcnow_at E (clock_reads w))).
Proof. unfold habit_body. apply lookup_insert_eq. Qed.

Lemma habit_body_lookup_id (E : env) (data : HabitSubmission) (w : world) :
  habit_body E data w !! "id" = Some (VStr (uuid4_at E (uuid_calls w))).
Proof.
  unfold habit_body. rewrite lookup_insert_ne by discriminate.
  apply lookup_insert_eq.
Qed.

Lemma habit_body_same_draw (E : env) (data : HabitSubmission) (w w0 : world) :
  uuid_calls w0 = uuid_calls w -> clock_reads w0 = clock_reads w ->
  habit_body E data w0 = habit_body E data w.
Proof. unfold habit_body. intros -> ->. reflexivity. Qed.

(** C4, as stated, fails when the write to the fallback file fails too.
    The remote store raises a connectivity error in both runs below.  In
    the first, [open] refuses the habits file: the call answers failure
    and no store holds the record.  In the second the write times out,
    which [is_network_error] takes for a connectivity error: the handler
    draws a second identifier and timestamp, stores the record under
    these, and answers with "id-1", not with the "id-0" assigned before
    the attempt at the remote store. *)
Lemma habits_fallback_write_fails :
  let path := Offline.habits_file Offline.offline_storage in
  let run := App.habits sample_env loaded_manager sample_submission in
  primary_raises world_disk_denied connect_error /\
  primary_raises world_disk_timeout connect_error /\
  is_network_error connect_error = true /\
  fst (run world_disk_denied)
    = Returned (MkHabitResponse false "Error saving habit" None) /\
  stored (snd (run world_disk_denied)) path = [] /\
  primary_rows (snd (run world_disk_denied)) = [] /\
  uuid4_at sample_env (uuid_calls world_disk_timeout) = "id-0"%string /\
  fst (run world_disk_timeout)
    = Returned (MkHabitResponse true "Saved offline (no internet connection)"
                  (Some "id-1"%string)) /\
  (exists body,
     stored (snd (run world_disk_timeout)) path = [body] /\
     body !! "id" = Some (VStr "id-1")).
Proof.
  cbv zeta.
  split; [reflexivity|]. split; [reflexivity|]. split; [reflexivity|].
  rewrite (habits_fallback_fails sample_env loaded_manager sample_submission
             world_disk_denied connect_error
             (MkDiskFault permission_denied AtOpen) eq_refl eq_refl eq_refl).
  rewrite (habits_fallback_fails sample_env loaded_manager sample_submission
             world_disk_timeout connect_error
             (MkDiskFault write_timeout AfterOpen) eq_refl eq_refl eq_refl).
  cbv zeta.
  change (is_network_error (fault_exn (MkDiskFault permission_denied AtOpen)))
    with false.
  change (is_network_error (fault_exn (MkDiskFault write_timeout AfterOpen)))
    with true.
  cbn [fst snd].
  split; [reflexivity|]. split; [reflexivity|]. split; [reflexivity|].
  split; [reflexivity|]. split; [reflexivity|].
  eexists. split; [vm_compute; reflexivity | reflexivity].
Qed.

(** C4, amended.  When the insert into the remote store raises an error
    that [is_network_error] classifies as a connectivity error and the
    write to the file of the fallback store goes through, [habits]
    appends to the fallback store the record with the identifier and the
    [created_at] timestamp drawn before the attempt, leaves the remote
    store as it was, and answers success with that identifier.  The
    record is the one a successful insert would have put in the remote
    store: run from a state with the same identifier and clock draws in
    which the remote store is reachable, [habits] stores that same record
    there and gives the same answer. *)
Theorem habits_transient_failure_falls_back
    (E : env) (mm : ModelManager) (data : HabitSubmission) (w : world) (e : exn) :
  primary_raises w e ->
  is_network_error e = true ->
  disk_writable w ->
  let id := uuid4_at E (uuid_calls w) in
  let body := habit_body E data w in
  let path := Offline.habits_file Offline.offline_storage in
  let answer := MkHabitResponse true "Saved successfully" (Some id) in
  (exists w',
     App.habits E mm data w = (Returned answer, w') /\
     stored w' path = stored w path ++ [body] /\
     primary_rows w' = primary_rows w) /\
  body !! "id" = Some (VStr id) /\
  body !! "created_at" = Some (VStr (utcnow_at E (clock_reads w))) /\
  (forall w0,
     uuid_calls w0 = uuid_calls w -> clock_reads w0 = clock_reads w ->
     primary_reachable w0 ->
     exists w0',
       App.habits E mm data w0 = (Returned answer, w0') /\
       primary_rows w0' = primary_rows w0 ++ [("habits"%string, body)] /\
       files w0' = files w0).
Proof.
  intros Hraise Hnet Hdisk id body path answer.
  split; [|split; [|split]].
  - eexists. split; [apply (habits_fallback_ok E mm data w e Hraise Hnet Hdisk)|].
    split; [|reflexivity]. unfold stored at 1. cbn [files].
    subst path. rewrite lookup_insert_eq. reflexivity.
  - apply habit_body_lookup_id.
  - apply habit_body_created_at.
  - intros w0 Hid Hclock Hreach. eexists.
    split; [rewrite (habits_primary_ok E mm data w0 Hreach)|].
    + subst answer id. rewrite Hid. reflexivity.
    + cbn [primary_rows files]. subst body.
      rewrite (habit_body_same_draw E data w w0 Hid Hclock). split; reflexivity.
Qed.

Lemma habits_transient_failure_falls_back_witness :
  exists w',
    App.habits sample_env loaded_manager sample_submission world_primary_down
      = (Returned (MkHabitResponse true "Saved successfully" (Some "id-0"%string)), w') /\
    stored w' (Offline.habits_file Offline.offline_storage)
      = [habit_body sample_env sample_submission world_primary_down].
Proof.
  destruct (habits_transient_failure_falls_back sample_env loaded_manager
              sample_submission world_primary_down connect_error
              eq_refl eq_refl eq_refl)
    as [(w' & Hrun & Hstored & _) _].
  exists w'. split; [exact Hrun | exact Hstored].
Defined.

(** C5, as stated, fails: a constraint violation of the remote store is
    not a connectivity error, and [habits] does not raise it; the handler
    around the whole body catches it and the call returns a response. *)
Lemma habits_returns_on_permanent_error :
  is_network_error constraint_violation = false /\
  primary_raises world_primary_rejects constraint_violation /\
  fst (App.habits sample_env loaded_manager sample_submission world_primary_rejects)
    = Returned (MkHabitResponse false "Error saving habit" None) /\
  fst (App.habits sample_env loaded_manager sample_submission world_primary_rejects)
    <> Raised constraint_violation.
Proof.
  split; [reflexivity|]. split; [reflexivity|].
  rewrite (habits_permanent sample_env loaded_manager sample_submission
             world_primary_rejects constraint_violation eq_refl eq_refl).
  split; [reflexivity | discriminate].
Qed.

(** C5, amended.  When the insert into the remote store raises an error
    that is not classified as a connectivity error, [habits] does not
    fall back: no write to the fallback store is attempted and its files
    are unchanged, the remote store holds what it held, and the call
    does not raise but returns the failure response (success false,
    message "Error saving habit", no identifier). *)
Theorem habits_permanent_failure_no_fallback
    (E : env) (mm : ModelManager) (data : HabitSubmission) (w : world) (e : exn) :
  primary_raises w e ->
  is_network_error e = false ->
  exists w',
    App.habits E mm data w
      = (Returned (MkHabitResponse false "Error saving habit" None), w') /\
    files w' = files w /\
    disk_faults w' = disk_faults w /\
    primary_rows w' = primary_rows w.
Proof.
  intros Hraise Hnet. eexists.
  split; [apply (habits_permanent E mm data w e Hraise Hnet)|].
  repeat split.
Qed.

Lemma habits_permanent_failure_no_fallback_witness :
  exists w',
    App.habits sample_env loaded_manager sample_submission world_primary_rejects
      = (Returned (MkHabitResponse false "Error saving habit" None), w') /\
    files w' = files world_primary_rejects.
Proof.
  destruct (habits_permanent_failure_no_fallback sample_env loaded_manager
              sample_submission world_primary_rejects constraint_violation
              eq_refl eq_refl)
    as (w' & Hrun & Hfiles & _).
  exists w'. split; [exact Hrun | exact Hfiles].
Defined.

(** C8, as stated, fails: the response has no place for a confidence.
    Two runs that store the same record in the remote store, one with a
    health model that scores it 62 with confidence 0.9, one without a
    model (score 50, confidence 0), return the same response. *)
Lemma habit_response_carries_no_confidence :
  let body := habit_body sample_env sample_submission world_reachable in
  ~ (wellness_confidence (predict_wellness loaded_manager body)
     == wellness_confidence (predict_wellness ModelManager_init body)) /\
  ~ (wellness_score (predict_wellness loaded_manager body)
     == wellness_score (predict_wellness ModelManager_init body)) /\
  fst (App.habits sample_env loaded_manager sample_submission world_reachable)
    = Returned (MkHabitResponse true "Saved successfully" (Some "id-0"%string)) /\
  fst (App.habits sample_env ModelManager_init sample_submission world_reachable)
    = fst (App.habits sample_env loaded_manager sample_submission world_reachable).
Proof.
  cbn zeta. split; [|split; [|split]].
  - vm_compute. discriminate.
  - vm_compute. discriminate.
  - rewrite (habits_primary_ok sample_env loaded_manager sample_submission
               world_reachable eq_refl). reflexivity.
  - rewrite !(habits_primary_ok sample_env _ sample_submission
                world_reachable eq_refl). reflexivity.
Qed.

(** What one call of [habits] does, in every world: it returns, and
    either answers success with the identifier of the record it has put
    at the end of the [habits] table or of the habits file, or answers
    failure and has added no record. *)
Lemma habits_outcome E mm data w :
  let path := Offline.habits_file Offline.offline_storage in
  exists r w',
    App.habits E mm data w = (Returned r, w') /\
    ((exists w0,
        (uuid_calls w <= uuid_calls w0 <= S (uuid_calls w))%nat /\
        success r = true /\
        habit_id r = Some (uuid4_at E (uuid_calls w0)) /\
        (primary_rows w' = primary_rows w ++ [("habits"%string, habit_body E data w0)] /\
         files w' = files w \/
         primary_rows w' = primary_rows w /\
         (files w' = <[path := stored w path ++ [habit_body E data w0]]> (files w) \/
          files w' = <[path := [habit_body E data w0]]> (files w)))) \/
     r = App.habits_failed /\
     primary_rows w' = primary_rows w /\
     (files w' = files w \/ files w' = delete path (files w))).
Proof.
  cbv zeta.
  destruct (fst (next_fault (primary_faults w))) as [e|] eqn:Hp.
  - destruct (is_network_error e) eqn:Hnet.
    + destruct (fst (next_fault (disk_faults w))) as [f|] eqn:Hd.
      * rewrite (habits_fallback_fails E mm data w e f Hp Hnet Hd). cbv zeta.
        set (path := Offline.habits_file Offline.offline_storage).
        set (w1 := after_failed_write w path f).
        assert (Hfiles1 : files w1 = files w \/ files w1 = delete path (files w)).
        { subst w1. unfold after_failed_write, files_after_fault. cbn [files].
          destruct (fault_stage f); auto. }
        destruct (is_network_error (fault_exn f)).
        -- destruct (fst (next_fault (disk_faults w1))) as [f2|].
           ++ eexists _, _. split; [reflexivity|]. right.
              split; [reflexivity|]. split; [reflexivity|].
              cbn [files]. unfold files_after_fault.
              destruct (fault_stage f2); [exact Hfiles1|].
              right. destruct Hfiles1 as [->| ->]; [reflexivity|].
              apply delete_delete_eq.
           ++ eexists _, _. split; [reflexivity|]. left. exists w1.
              split; [subst w1; cbn; lia|].
              split; [reflexivity|]. split; [reflexivity|]. right.
              split; [reflexivity|]. cbn [files].
              subst w1. unfold after_failed_write, files_after_fault, stored.
              cbn [files]. destruct (fault_stage f).
              ** left. reflexivity.
              ** right. rewrite lookup_delete_eq. cbn [default].
                 apply insert_delete_eq.
        -- eexists _, _. split; [reflexivity|]. right.
           split; [reflexivity|]. split; [reflexivity|]. exact Hfiles1.
      * rewrite (habits_fallback_ok E mm data w e Hp Hnet Hd).
        eexists _, _. split; [reflexivity|]. left. exists w.
        split; [lia|]. split; [reflexivity|]. split; [reflexivity|].
        right. split; [reflexivity|]. left. reflexivity.
    + rewrite (habits_permanent E mm data w e Hp Hnet).
      eexists _, _. split; [reflexivity|]. right.
      split; [reflexivity|]. split; [reflexivity|]. left. reflexivity.
  - rewrite (habits_primary_ok E mm data w Hp).
    eexists _, _. split; [reflexivity|]. left. exists w.
    split; [lia|]. split; [reflexivity|]. split; [reflexivity|].
    left. split; reflexivity.
Qed.

(** C8, amended.  [habits] never raises.  When the remote store accepts
    the record, and when it fails with a connectivity error and the
    fallback store takes the record, the response reports success and
    carries the identifier assigned to the stored record.  In every run,
    either the response reports success and carries the identifier of a
    record built from the submission that this call has put at the end of
    the [habits] table or of the habits file, or it reports failure,
    carries no identifier, and no store has taken a record: the table is
    as it was, and the habits file is as it was or is left without a
    document.  The response consists of [success], [message] and
    [habit_id]: it has no confidence and does not tell which store was
    used. *)
Theorem habits_reports_success_with_identifier
    (E : env) (mm : ModelManager) (data : HabitSubmission) (w : world) :
  let id := uuid4_at E (uuid_calls w) in
  let body := habit_body E data w in
  let path := Offline.habits_file Offline.offline_storage in
  let answer := MkHabitResponse true "Saved successfully" (Some id) in
  exists r w',
    App.habits E mm data w = (Returned r, w') /\
    (primary_reachable w ->
     r = answer /\ body !! "id" = Some (VStr id) /\
     primary_rows w' = primary_rows w ++ [("habits"%string, body)] /\
     files w' = files w) /\
    (forall e, primary_raises w e -> is_network_error e = true ->
     disk_writable w ->
     r = answer /\ body !! "id" = Some (VStr id) /\
     stored w' path = stored w path ++ [body] /\
     primary_rows w' = primary_rows w) /\
    (success r = true /\
     (exists stored_id stored_body,
        habit_id r = Some stored_id /\
        stored_body !! "id" = Some (VStr stored_id) /\
        (exists w0, stored_body = habit_body E data w0) /\
        (primary_rows w' = primary_rows w ++ [("habits"%string, stored_body)] /\
         files w' = files w \/
         primary_rows w' = primary_rows w /\
         exists earlier,
           files w' = <[path := earlier ++ [stored_body]]> (files w))) \/
     success r = false /\ habit_id r = None /\
     primary_rows w' = primary_rows w /\
     (files w' = files w \/ files w' = delete path (files w))).
Proof.
  intros id body path answer.
  destruct (habits_outcome E mm data w) as (r & w' & Hrun & Hcases).
  exists r, w'. split; [exact Hrun|]. split; [|split].
  - intros Hp. rewrite (habits_primary_ok E mm data w Hp) in Hrun.
    injection Hrun as <- <-. split; [reflexivity|].
    split; [apply habit_body_lookup_id|]. split; reflexivity.
  - intros e Hp Hnet Hd.
    rewrite (habits_fallback_ok E mm data w e Hp Hnet Hd) in Hrun.
    injection Hrun as <- <-. split; [reflexivity|].
    split; [apply habit_body_lookup_id|]. split; [|reflexivity].
    unfold stored at 1. cbn [files]. subst path.
    rewrite lookup_insert_eq. reflexivity.
  - destruct Hcases as [(w0 & _ & Hs & Hid & Hstored)|(-> & Hrows & Hfiles)].
    + left. split; [exact Hs|].
      exists (uuid4_at E (uuid_calls w0)), (habit_body E data w0).
      split; [exact Hid|]. split; [apply habit_body_lookup_id|].
      split; [by exists w0|].
      destruct Hstored as [[Hrows Hfiles]|[Hrows [Hfiles|Hfiles]]].
      * left. by split.
      * right. split; [exact Hrows|]. by eexists.
      * right. split; [exact Hrows|]. by exists [].
    + right. split; [reflexivity|]. split; [reflexivity|]. by split.
Qed.

Lemma habits_reports_success_with_identifier_witness :
  exists r w',
    App.habits sample_env loaded_manager sample_submission world_primary_down
      = (Returned r, w') /\
    r = MkHabitResponse true "Saved successfully" (Some "id-0"%string).
Proof.
  destruct (habits_reports_success_with_identifier sample_env loaded_manager
              sample_submission world_primary_down)
    as (r & w' & Hrun & _ & Hfallback & _).
  exists r, w'. split; [exact Hrun|].
  apply (Hfallback connect_error eq_refl eq_refl eq_refl).
Defined.

(** ** Reading: [get_scans] *)

Ltac run_reader :=
  unfold App.get_scans, App.get_scans_try;
  unfold try_except, bind, supabase_select, lift, raise;
  step.

Lemma format_scans_nil E mm : App.format_scans E mm [] = [].
Proof. reflexivity. Qed.

Lemma scans_answer E mm (rows : list (gmap string pyval)) (w : world) :
  (if bool_decide (rows = []) then ret (App.MkScansResponse true [])
   else ret (App.MkScansResponse true (App.format_scans E mm rows))) w
  = (Returned (App.MkScansResponse true (App.format_scans E mm rows)), w).
Proof. case_bool_decide as Hnil; [rewrite Hnil|]; reflexivity. Qed.

Lemma get_scans_primary_ok E mm limit w :
  primary_reachable w ->
  App.get_scans E mm limit w
  = (Returned (App.MkScansResponse true
       (App.format_scans E mm (select_rows E "stress_scan" "scanned_at" limit))),
     after_primary_call w).
Proof.
  unfold primary_reachable, after_primary_call. intros Hp. run_reader.
  destruct (next_fault (primary_faults w)) as [f rest]. cbn in Hp. subst f. step.
  rewrite scans_answer. reflexivity.
Qed.

Lemma get_scans_transient E mm limit w e :
  primary_raises w e -> is_network_error e = true ->
  App.get_scans E mm limit w
  = match Offline.get_scans Offline.offline_storage limit (after_primary_call w) with
    | (Returned rows, w') =>
        (Returned (App.MkScansResponse true (App.format_scans E mm rows)), w')
    | (Raised _, w') => (Returned (App.MkScansResponse true []), w')
    end.
Proof.
  unfold primary_raises, after_primary_call. intros Hp Hnet. run_reader.
  destruct (next_fault (primary_faults w)) as [f rest]. cbn in Hp. subst f. step.
  rewrite Hnet.
  destruct (Offline.get_scans _ _ _) as [[rows|e'] w']; [|reflexivity].
  rewrite scans_answer. reflexivity.
Qed.

Lemma get_scans_permanent E mm limit w e :
  primary_raises w e -> is_network_error e = false ->
  App.get_scans E mm limit w
  = (Returned (App.MkScansResponse true []), after_primary_call w) /\
  App.get_scans_try E mm limit w = (Raised e, after_primary_call w).
Proof.
  unfold primary_raises, after_primary_call. intros Hp Hnet. run_reader.
  destruct (next_fault (primary_faults w)) as [f rest]. cbn in Hp. subst f. step.
  rewrite Hnet. split; reflexivity.
Qed.

Lemma get_scans_try_success E mm limit w r w' :
  App.get_scans_try E mm limit w = (Returned r, w') -> App.resp_success r = true.
Proof.
  unfold App.get_scans_try. unfold bind at 1.
  destruct (try_except _ _ w) as [[rows|e] w1]; [|discriminate].
  rewrite scans_answer. intros [= <- _]. reflexivity.
Qed.

Lemma fallback_scans_same_files (limit : Z) (w : world) :
  fst (Offline.get_scans Offline.offline_storage limit (after_primary_call w))
  = fst (Offline.get_scans Offline.offline_storage limit w).
Proof.
  rewrite !get_scans_unfold. unfold stored. cbn [after_primary_call files].
  destruct (Offline.sort_desc _ _); reflexivity.
Qed.

(** C6, as stated, fails on its second half: a constraint violation of
    the remote store is not a connectivity error, the inner handler of
    [get_scans] raises it again, and the outer handler turns it into a
    successful response with no records. *)
Lemma get_scans_absorbs_permanent_error :
  is_network_error constraint_violation = false /\
  primary_raises world_primary_rejects constraint_violation /\
  fst (App.get_scans sample_env loaded_manager 5 world_primary_rejects)
    = Returned (App.MkScansResponse true []) /\
  fst (App.get_scans sample_env loaded_manager 5 world_primary_rejects)
    <> Raised constraint_violation.
Proof.
  split; [reflexivity|]. split; [reflexivity|].
  rewrite (proj1 (get_scans_permanent sample_env loaded_manager 5
                    world_primary_rejects constraint_violation eq_refl eq_refl)).
  split; [reflexivity | discriminate].
Qed.

(** C6, amended.  When the query to the remote store raises, [get_scans]
    classifies the error.  A connectivity error makes it take the records
    from the fallback store instead: the response holds these records,
    formatted (no records if the fallback store raises in turn).  Any
    other error is raised again by the inner handler, caught by the outer
    one and absorbed: the call answers success with an empty list, and
    the fallback store is not asked. *)
Theorem get_scans_on_store_failure
    (E : env) (mm : ModelManager) (limit : Z) (w : world) (e : exn) :
  primary_raises w e ->
  (is_network_error e = true ->
   fst (App.get_scans E mm limit w)
   = Returned (App.MkScansResponse true
       match fst (Offline.get_scans Offline.offline_storage limit w) with
       | Returned rows => App.format_scans E mm rows
       | Raised _ => []
       end)) /\
  (is_network_error e = false ->
   fst (App.get_scans_try E mm limit w) = Raised e /\
   App.get_scans E mm limit w
   = (Returned (App.MkScansResponse true []), after_primary_call w)).
Proof.
  intros Hraise. split; intros Hnet.
  - rewrite (get_scans_transient E mm limit w e Hraise Hnet).
    rewrite <- (fallback_scans_same_files limit w).
    destruct (Offline.get_scans _ _ _) as [[rows|e'] w']; reflexivity.
  - destruct (get_scans_permanent E mm limit w e Hraise Hnet) as [Hrun Htry].
    rewrite Htry. split; [reflexivity | exact Hrun].
Qed.

Lemma get_scans_on_store_failure_witness :
  fst (App.get_scans sample_env loaded_manager 5 world_primary_down)
    = Returned (App.MkScansResponse true []) /\
  fst (App.get_scans sample_env loaded_manager 5 world_primary_rejects)
    = Returned (App.MkScansResponse true []).
Proof.
  split.
  - rewrite (proj1 (get_scans_on_store_failure sample_env loaded_manager 5
                      world_primary_down connect_error eq_refl) eq_refl).
    reflexivity.
  - rewrite (proj2 (proj2 (get_scans_on_store_failure sample_env loaded_manager 5
                      world_primary_rejects constraint_violation eq_refl) eq_refl)).
    reflexivity.
Defined.

(** C7.  [get_scans] never raises: it always returns a response that
    reports success, and whenever an error escapes the body of the
    handler (a store error that is not a connectivity error, a fallback
    store that fails, ...) the response holds an empty list.  An error
    while one record is formatted does not escape: the loop reports it
    and goes on with the next record. *)
Theorem get_scans_never_raises
    (E : env) (mm : ModelManager) (limit : Z) (w : world) :
  exists data w',
    App.get_scans E mm limit w = (Returned (App.MkScansResponse true data), w') /\
    (forall e, fst (App.get_scans_try E mm limit w) = Raised e -> data = []).
Proof.
  unfold App.get_scans, try_except.
  destruct (App.get_scans_try E mm limit w) as [[r|e] w'] eqn:Htry.
  - pose proof (get_scans_try_success E mm limit w r w' Htry) as Hs.
    destruct r as [ok data]. cbn in Hs. subst ok.
    exists data, w'. split; [reflexivity|]. cbn. discriminate.
  - exists [], w'. split; [reflexivity|]. reflexivity.
Qed.

Lemma get_scans_never_raises_witness :
  exists w',
    App.get_scans sample_env loaded_manager 5 world_primary_rejects
      = (Returned (App.MkScansResponse true []), w').
Proof.
  destruct (get_scans_never_raises sample_env loaded_manager 5 world_primary_rejects)
    as (data & w' & Hrun & Hempty).
  exists w'. rewrite Hrun.
  rewrite (Hempty constraint_violation); [reflexivity|].
  rewrite (proj2 (get_scans_permanent sample_env loaded_manager 5
                    world_primary_rejects constraint_violation eq_refl eq_refl)).
  reflexivity.
Defined.

(* ===================================================================== *)
(** * Further properties of the code                                     *)
(* ===================================================================== *)

(** An outcome that computes to a result is one. *)
Lemma returned_of_check {A : Type} (o : outcome A) :
  match o with Returned _ => true | Raised _ => false end = true ->
  exists a, o = Returned a.
Proof. destruct o as [a|e]; [by exists a | discriminate]. Qed.

(* ===================================================================== *)
(** ** Classification of errors                                          *)
(* ===================================================================== *)

Lemma string_prefix_spec (needle hay : string) :
  String.prefix needle hay = true <-> exists post, hay = needle +:+ post.
Proof.
  revert hay. induction needle as [|c needle IH]; intros hay.
  - split; [intros _; exists hay; reflexivity | intros _; by destruct hay].
  - destruct hay as [|d hay]; simpl.
    + split; [discriminate | intros [post Hpost]; discriminate].
    + destruct (Ascii.ascii_dec c d) as [->|Hne].
      * rewrite IH. split; intros [post Hpost]; exists post.
        -- rewrite Hpost. reflexivity.
        -- change (String d needle +:+ post) with (String d (needle +:+ post)) in Hpost.
           congruence.
      * split; [discriminate|]. intros [post Hpost].
        change (String c needle +:+ post) with (String c (needle +:+ post)) in Hpost.
        congruence.
Qed.

Lemma contains_spec (needle hay : string) :
  contains needle hay = true <->
  exists pre post, hay = pre +:+ needle +:+ post.
Proof.
  induction hay as [|c hay IH].
  - cbn [contains]. rewrite orb_false_r, string_prefix_spec. split.
    + intros [post Hpost]. exists ""%string, post. exact Hpost.
    + intros (pre & post & Heq). destruct pre as [|d pre]; [|discriminate].
      exists post. exact Heq.
  - cbn [contains]. rewrite orb_true_iff, string_prefix_spec, IH. split.
    + intros [[post Hpost]|(pre & post & Heq)].
      * exists ""%string, post. exact Hpost.
      * exists (String c pre), post. rewrite Heq. reflexivity.
    + intros (pre & post & Heq). destruct pre as [|d pre].
      * left. exists post. exact Heq.
      * right. exists pre, post.
        change (String d pre +:+ needle +:+ post)
          with (String d (pre +:+ needle +:+ post)) in Heq.
        congruence.
Qed.

(** X1. [is_network_error] answers [True] exactly when one of the seven
    indicators occurs as a substring of the name of the exception's class
    or of its message. *)
Theorem is_network_error_spec (e : exn) :
  is_network_error e = true <->
  exists indicator,
    indicator ∈ network_indicators /\
    (substring_of indicator (exn_type e) \/ substring_of indicator (exn_msg e)).
Proof.
  unfold is_network_error. rewrite existsb_exists. unfold substring_of.
  split.
  - intros (i & Hin & Hc). exists i. split; [by apply list_elem_of_In|].
    apply orb_true_iff in Hc as [Hc|Hc]; [left|right]; by apply contains_spec.
  - intros (i & Hin & Hc). exists i. split; [by apply list_elem_of_In|].
    apply orb_true_iff. destruct Hc as [Hc|Hc]; [left|right]; by apply contains_spec.
Qed.

Lemma is_network_error_spec_witness : is_network_error connect_error = true.
Proof.
  apply (proj2 (is_network_error_spec connect_error)).
  exists "ConnectError"%string. split; [apply list_elem_of_here|].
  left. exists ""%string, ""%string. reflexivity.
Defined.

(* ===================================================================== *)
(** ** Reading the fallback store                                        *)
(* ===================================================================== *)

Lemma string_ltb_neq (s t : string) : String.ltb s t = true -> s <> t.
Proof.
  unfold String.ltb. intros H ->.
  pose proof (String.compare_antisym t t) as Ha.
  destruct (String.compare t t); simpl in *; congruence.
Qed.

Lemma insert_desc_stable (col t : string) (x : gmap string pyval)
    (l r : list (gmap string pyval)) :
  timestamp_ok col x -> Forall (timestamp_ok col) l ->
  Offline.insert_desc (sort_key col) x l = Returned r ->
  filter (dated col t) r = filter (dated col t) (x :: l).
Proof.
  intros Hx. revert r. induction l as [|y rest IH]; intros r Hok Hr.
  - cbn in Hr. by injection Hr as <-.
  - apply Forall_cons in Hok as [Hy Hrest].
    cbn [Offline.insert_desc] in Hr. rewrite (py_lt_keys col x y Hx Hy) in Hr.
    cbn [obind] in Hr.
    destruct (String.ltb (timestamp col x) (timestamp col y)) eqn:Hlt.
    + destruct (Offline.insert_desc (sort_key col) x rest) as [r'|e] eqn:Hr';
        [|discriminate].
      cbn [obind] in Hr. injection Hr as <-.
      specialize (IH r' Hrest eq_refl).
      apply string_ltb_neq in Hlt.
      rewrite !filter_cons, IH, !filter_cons. unfold dated.
      repeat case_decide; congruence.
    + by injection Hr as <-.
Qed.

Lemma sort_desc_stable (col t : string) (l r : list (gmap string pyval)) :
  timestamps_ok col l ->
  Offline.sort_desc (sort_key col) l = Returned r ->
  filter (dated col t) r = filter (dated col t) l.
Proof.
  revert r. induction l as [|x rest IH]; intros r Hok Hr.
  - cbn in Hr. by injection Hr as <-.
  - apply Forall_cons in Hok as [Hx Hrest].
    cbn [Offline.sort_desc] in Hr.
    destruct (sort_desc_sorted col rest Hrest) as (r0 & Hr0 & Hperm & _).
    rewrite Hr0 in Hr. cbn [obind] in Hr.
    assert (Hok0 : Forall (timestamp_ok col) r0) by (by rewrite Hperm).
    rewrite (insert_desc_stable col t x r0 r Hx Hok0 Hr).
    rewrite !filter_cons, (IH r0 Hrest Hr0). reflexivity.
Qed.

Lemma string_leb_refl (s : string) : String.leb s s = true.
Proof. apply string_leb_iff. by left. Qed.

Lemma py_slice_to_all {A} (l : list A) (stop : Z) :
  (Z.of_nat (length l) <= stop)%Z -> Offline.py_slice_to l stop = l.
Proof.
  intros H. rewrite py_slice_to_nonneg by lia. apply take_ge. lia.
Qed.

(** X2. When the limit covers the whole file, [get_scans] and [get_habits]
    of the fallback store return a permutation of the stored records in
    which the records of one timestamp keep the order they have in the
    file: the descending sort is stable. *)
Theorem fallback_recent_ties_keep_file_order
    (self : Offline.OfflineStorage) (limit : Z) (w : world) (t : string) :
  (timestamps_ok "scanned_at" (stored w (Offline.scans_file self)) ->
   (Z.of_nat (length (stored w (Offline.scans_file self))) <= limit)%Z ->
   exists rows,
     Offline.get_scans self limit w = (Returned rows, w) /\
     rows ≡ₚ stored w (Offline.scans_file self) /\
     filter (dated "scanned_at" t) rows
     = filter (dated "scanned_at" t) (stored w (Offline.scans_file self))) /\
  (timestamps_ok "created_at" (stored w (Offline.habits_file self)) ->
   (Z.of_nat (length (stored w (Offline.habits_file self))) <= limit)%Z ->
   exists rows,
     Offline.get_habits self limit w = (Returned rows, w) /\
     rows ≡ₚ stored w (Offline.habits_file self) /\
     filter (dated "created_at" t) rows
     = filter (dated "created_at" t) (stored w (Offline.habits_file self))).
Proof.
  split; intros Hok Hlimit.
  - destruct (sort_desc_sorted "scanned_at" _ Hok) as (sorted & Hsort & Hperm & _).
    exists sorted. rewrite get_scans_unfold, Hsort.
    rewrite py_slice_to_all by (by rewrite Hperm).
    split; [reflexivity|]. split; [exact Hperm|].
    by apply sort_desc_stable.
  - destruct (sort_desc_sorted "created_at" _ Hok) as (sorted & Hsort & Hperm & _).
    exists sorted. rewrite get_habits_unfold, Hsort.
    rewrite py_slice_to_all by (by rewrite Hperm).
    split; [reflexivity|]. split; [exact Hperm|].
    by apply sort_desc_stable.
Qed.

Lemma fallback_recent_ties_keep_file_order_witness :
  exists rows,
    Offline.get_scans Offline.offline_storage 5 world_with_ties
    = (Returned rows, world_with_ties) /\
    rows ≡ₚ tied_scans /\
    filter (dated "scanned_at" "2024-01-01T10:00:00+00:00") rows
    = [scan_row "2024-01-01T10:00:00+00:00" 1;
       scan_row "2024-01-01T10:00:00+00:00" 3].
Proof.
  apply (proj1 (fallback_recent_ties_keep_file_order
                  Offline.offline_storage 5 world_with_ties
                  "2024-01-01T10:00:00+00:00")).
  - unfold timestamps_ok.
    repeat (constructor; [right; eexists; reflexivity|]). constructor.
  - vm_compute. discriminate.
Defined.

Lemma create_scan_unfold (self : Offline.OfflineStorage) (r : gmap string pyval)
    (w : world) :
  disk_writable w ->
  Offline.create_scan self r w
  = (Returned r,
     MkWorld (primary_rows w) (primary_faults w)
       (<[Offline.scans_file self := stored w (Offline.scans_file self) ++ [r]]>
          (files w))
       (snd (next_fault (disk_faults w))) (uuid_calls w) (clock_reads w)).
Proof.
  unfold disk_writable. intros Hd.
  unfold Offline.create_scan, Offline._read_file, Offline._write_file, bind, ret.
  cbn [disk_faults files primary_rows primary_faults uuid_calls clock_reads].
  destruct (next_fault (disk_faults w)) as [f rest]. cbn in Hd. subst f.
  reflexivity.
Qed.

(** X3. On a writable disk [create_scan] returns the record it was given
    and appends it to the scans file; a following [get_scans] with a
    non-negative limit returns the first [limit] records of the file
    sorted newest first, and holds the new record as soon as the limit
    exceeds the number of records stored before. *)
Theorem create_scan_then_get_scans
    (self : Offline.OfflineStorage) (r : gmap string pyval) (limit : Z) (w : world) :
  disk_writable w ->
  timestamps_ok "scanned_at" (stored w (Offline.scans_file self) ++ [r]) ->
  (0 <= limit)%Z ->
  exists w1 rows sorted,
    Offline.create_scan self r w = (Returned r, w1) /\
    stored w1 (Offline.scans_file self) = stored w (Offline.scans_file self) ++ [r] /\
    Offline.get_scans self limit w1 = (Returned rows, w1) /\
    sorted ≡ₚ stored w (Offline.scans_file self) ++ [r] /\
    newest_first "scanned_at" sorted /\
    rows = take (Z.to_nat limit) sorted /\
    ((Z.of_nat (length (stored w (Offline.scans_file self))) < limit)%Z -> r ∈ rows).
Proof.
  intros Hdisk Hok Hlimit.
  rewrite (create_scan_unfold self r w Hdisk).
  set (w1 := MkWorld _ _ _ _ _ _). exists w1.
  assert (Hstored : stored w1 (Offline.scans_file self)
                    = stored w (Offline.scans_file self) ++ [r]).
  { unfold stored at 1. subst w1. cbn [files]. by rewrite lookup_insert_eq. }
  rewrite <- Hstored in Hok.
  destruct (recent_rows "scanned_at" _ limit Hlimit Hok)
    as (sorted & Hsort & Hperm & Hnf & Hrows & _).
  exists (Offline.py_slice_to sorted limit), sorted.
  split; [reflexivity|]. split; [exact Hstored|].
  rewrite get_scans_unfold. unfold sort_key. rewrite Hsort.
  split; [reflexivity|]. rewrite Hstored in Hperm.
  split; [exact Hperm|]. split; [exact Hnf|]. split; [exact Hrows|].
  intros Hlen. rewrite Hrows, take_ge.
  - rewrite Hperm. set_solver.
  - rewrite Hperm, length_app. simpl. lia.
Qed.

Lemma create_scan_then_get_scans_witness :
  exists w1 rows,
    Offline.create_scan Offline.offline_storage
      (scan_row "2024-02-01T10:00:00+00:00" 4) world_with_scans
    = (Returned (scan_row "2024-02-01T10:00:00+00:00" 4), w1) /\
    Offline.get_scans Offline.offline_storage 5 w1 = (Returned rows, w1) /\
    newest_first "scanned_at" rows /\
    scan_row "2024-02-01T10:00:00+00:00" 4 ∈ rows.
Proof.
  destruct (create_scan_then_get_scans Offline.offline_storage
              (scan_row "2024-02-01T10:00:00+00:00" 4) 5 world_with_scans)
    as (w1 & rows & sorted & Hc & _ & Hg & Hp & Hs & Hr & Hin).
  - reflexivity.
  - apply Forall_app. split; [exact three_scans_ok|].
    constructor; [right; eexists; reflexivity | constructor].
  - lia.
  - exists w1, rows. split; [exact Hc|]. split; [exact Hg|]. split.
    + rewrite Hr. rewrite firstn_all2; [exact Hs|].
      rewrite (Permutation_length Hp). vm_compute. lia.
    + apply Hin. vm_compute. reflexivity.
Defined.

(** X4. [get_latest_scan] of the fallback store changes nothing, answers
    [None] exactly when the scans file is empty, and otherwise returns a
    stored record whose timestamp no stored record exceeds: the first one
    in the file among those of that timestamp. *)
Theorem offline_latest_scan (self : Offline.OfflineStorage) (w : world) :
  timestamps_ok "scanned_at" (stored w (Offline.scans_file self)) ->
  exists latest,
    OfflineMore.get_latest_scan self w = (Returned latest, w) /\
    (latest = None <-> stored w (Offline.scans_file self) = []) /\
    forall r, latest = Some r ->
      r ∈ stored w (Offline.scans_file self) /\
      (forall x, x ∈ stored w (Offline.scans_file self) -> ts_ge "scanned_at" r x) /\
      head (filter (dated "scanned_at" (timestamp "scanned_at" r))
              (stored w (Offline.scans_file self))) = Some r.
Proof.
  intros Hok.
  destruct (sort_desc_sorted "scanned_at" _ Hok) as (sorted & Hsort & Hperm & Hs).
  pose proof (sort_desc_stable "scanned_at") as Hstable.
  exists (head sorted).
  unfold OfflineMore.get_latest_scan, bind. rewrite get_scans_unfold, Hsort.
  rewrite py_slice_to_nonneg by lia.
  split; [by destruct sorted|]. split.
  - split.
    + intros Hnone. destruct sorted as [|x rest]; [|discriminate].
      by apply Permutation_nil_l in Hperm.
    + intros Hnil. rewrite Hnil in Hperm. by apply Permutation_nil_r in Hperm as ->.
  - intros r Hr. destruct sorted as [|x rest]; [discriminate|].
    injection Hr as ->. split; [|split].
    + rewrite <- Hperm. set_solver.
    + intros x Hx. rewrite <- Hperm in Hx.
      apply StronglySorted_inv in Hs as [_ Hall].
      apply elem_of_cons in Hx as [->|Hx].
      * unfold ts_ge. apply string_leb_refl.
      * by eapply Forall_forall in Hall.
    + rewrite <- (Hstable _ _ _ Hok Hsort). rewrite filter_cons.
      unfold dated at 1. by case_decide.
Qed.

Lemma offline_latest_scan_witness :
  exists latest,
    OfflineMore.get_latest_scan Offline.offline_storage world_with_scans
    = (Returned latest, world_with_scans) /\
    (forall r, latest = Some r -> r ∈ three_scans).
Proof.
  destruct (offline_latest_scan Offline.offline_storage world_with_scans
              three_scans_ok) as (latest & Hl & _ & Hr).
  exists latest. split; [exact Hl|]. intros r Hsome. exact (proj1 (Hr r Hsome)).
Defined.

(* ===================================================================== *)
(** ** The users of the fallback store                                   *)
(* ===================================================================== *)

Lemma write_users_unfold (self : Offline.OfflineStorage)
    (users : list (gmap string pyval)) (w : world) :
  disk_writable w ->
  Offline._write_file (Offline.users_file self) users w
  = (Returned tt,
     MkWorld (primary_rows w) (primary_faults w)
       (<[Offline.users_file self := users]> (files w))
       (snd (next_fault (disk_faults w))) (uuid_calls w) (clock_reads w)).
Proof.
  unfold disk_writable, Offline._write_file. intros Hd.
  destruct (next_fault (disk_faults w)) as [f rest]. cbn in Hd. subst f.
  reflexivity.
Qed.

Lemma find_app {A} (P : A -> bool) (l1 l2 : list A) :
  List.find P (l1 ++ l2)
  = match List.find P l1 with Some x => Some x | None => List.find P l2 end.
Proof.
  induction l1 as [|x l1 IH]; [reflexivity|]. simpl.
  destruct (P x); [reflexivity | exact IH].
Qed.

(** X5. On a writable disk [create_user] returns [True] and appends the
    user to the users file.  A following [get_user_by_email] finds what it
    found before when a user of that email was already stored (the new one
    is shadowed), and the new user otherwise when its email matches. *)
Theorem create_user_then_lookup
    (self : Offline.OfflineStorage) (user_data : gmap string pyval)
    (email : string) (w : world) :
  disk_writable w ->
  exists w1,
    OfflineMore.create_user self user_data w = (Returned true, w1) /\
    stored w1 (Offline.users_file self)
      = stored w (Offline.users_file self) ++ [user_data] /\
    OfflineMore.get_user_by_email self email w1
    = (Returned
         match fst (OfflineMore.get_user_by_email self email w) with
         | Returned (Some earlier) => Some earlier
         | _ => if OfflineMore.has_email email user_data
                then Some user_data else None
         end, w1).
Proof.
  intros Hdisk.
  unfold OfflineMore.create_user, OfflineMore.get_user_by_email, bind, ret,
    Offline._read_file.
  rewrite (write_users_unfold self _ w Hdisk).
  eexists. split; [reflexivity|].
  unfold stored. cbn [files fst]. rewrite lookup_insert_eq. cbn [default].
  split; [reflexivity|]. unfold id.
  rewrite find_app. cbn [List.find].
  destruct (List.find _ _); reflexivity.
Qed.

Lemma create_user_then_lookup_witness :
  exists w1,
    OfflineMore.create_user Offline.offline_storage
      (user_row "ann@example.org" "Ann") world_reachable = (Returned true, w1) /\
    OfflineMore.get_user_by_email Offline.offline_storage "ann@example.org" w1
    = (Returned (Some (user_row "ann@example.org" "Ann")), w1).
Proof.
  destruct (create_user_then_lookup Offline.offline_storage
              (user_row "ann@example.org" "Ann") "ann@example.org"
              world_reachable eq_refl) as (w1 & Hc & _ & Hg).
  exists w1. split; [exact Hc | exact Hg].
Defined.

Lemma update_first_spec (email : string) (updates : gmap string pyval)
    (users : list (gmap string pyval)) :
  match OfflineMore.update_first email updates users with
  | None => Forall (fun u => OfflineMore.has_email email u = false) users
  | Some users' =>
      exists i u,
        users !! i = Some u /\
        OfflineMore.has_email email u = true /\
        (forall j v, (j < i)%nat -> users !! j = Some v ->
                     OfflineMore.has_email email v = false) /\
        users' = <[i := updates ∪ u]> users
  end.
Proof.
  induction users as [|user rest IH]; cbn [OfflineMore.update_first].
  - constructor.
  - destruct (OfflineMore.has_email email user) eqn:Hm.
    + exists 0%nat, user. repeat split; [exact Hm|]. intros j v Hj. lia.
    + destruct (OfflineMore.update_first email updates rest) as [rest'|];
        cbn [option_map].
      * destruct IH as (i & u & Hi & Hu & Hbefore & ->).
        exists (S i), u. split; [exact Hi|]. split; [exact Hu|].
        split; [|reflexivity]. intros [|j] v Hj Hv.
        -- cbn in Hv. by injection Hv as <-.
        -- apply (Hbefore j v); [lia | exact Hv].
      * by constructor.
Qed.

(** X6. [update_user] returns [False] and writes nothing when no stored
    user has the email.  Otherwise, on a writable disk, it returns [True]
    and replaces only the first user of that email by that user updated,
    where the keys of [updates] take the new values and every other key
    keeps its value. *)
Theorem update_user_spec
    (self : Offline.OfflineStorage) (email : string)
    (updates : gmap string pyval) (w : world) :
  let users := stored w (Offline.users_file self) in
  (Forall (fun u => OfflineMore.has_email email u = false) users ->
   OfflineMore.update_user self email updates w = (Returned false, w)) /\
  (forall i u,
     users !! i = Some u ->
     OfflineMore.has_email email u = true ->
     (forall j v, (j < i)%nat -> users !! j = Some v ->
                  OfflineMore.has_email email v = false) ->
     disk_writable w ->
     exists w1,
       OfflineMore.update_user self email updates w = (Returned true, w1) /\
       stored w1 (Offline.users_file self) = <[i := updates ∪ u]> users /\
       (updates !! "email" = None ->
        OfflineMore.get_user_by_email self email w1
        = (Returned (Some (updates ∪ u)), w1)) /\
       (forall k v, updates !! k = Some v -> (updates ∪ u) !! k = Some v) /\
       (forall k, updates !! k = None -> (updates ∪ u) !! k = u !! k)).
Proof.
  intros users. subst users. split.
  - intros Hnone.
    unfold OfflineMore.update_user, bind, ret, Offline._read_file.
    fold (stored w (Offline.users_file self)).
    pose proof (update_first_spec email updates (stored w (Offline.users_file self)))
      as Hspec.
    destruct (OfflineMore.update_first _ _ _) as [users'|]; [|reflexivity].
    destruct Hspec as (i & u & Hi & Hu & _).
    eapply Forall_lookup_1 in Hnone; [|exact Hi]. cbn in Hnone. congruence.
  - intros i u Hi Hu Hfirst Hdisk.
    unfold OfflineMore.update_user, OfflineMore.get_user_by_email, bind, ret,
      Offline._read_file.
    fold (stored w (Offline.users_file self)).
    pose proof (update_first_spec email updates (stored w (Offline.users_file self)))
      as Hspec.
    destruct (OfflineMore.update_first _ _ _) as [users'|].
    + destruct Hspec as (i' & u' & Hi' & Hu' & Hfirst' & ->).
      assert (i' = i) as ->.
      { destruct (Nat.lt_trichotomy i' i) as [Hlt|[Heq|Hgt]]; [|exact Heq|].
        - specialize (Hfirst i' u' Hlt Hi'). congruence.
        - specialize (Hfirst' i u Hgt Hi). congruence. }
      assert (u' = u) as -> by congruence.
      rewrite (write_users_unfold self _ w Hdisk).
      eexists. split; [reflexivity|].
      unfold stored at 1. cbn [files]. rewrite lookup_insert_eq. cbn [default].
      split; [reflexivity|]. split; [|split].
      * intros Hkeep. f_equal. f_equal. unfold id.
        assert (Hm : OfflineMore.has_email email (updates ∪ u) = true).
        { unfold OfflineMore.has_email, dict_get_none, dict_get in *.
          rewrite lookup_union_r by exact Hkeep. exact Hu. }
        clear Hi'. revert i Hi Hfirst Hfirst'.
        generalize (stored w (Offline.users_file self)).
        intros l. induction l as [|x l IH]; intros [|i] Hi Hfirst Hfirst';
          try discriminate.
        -- cbn. by rewrite Hm.
        -- cbn. rewrite (Hfirst 0%nat x) by (lia || reflexivity).
           apply (IH i Hi).
           ++ intros j v Hj Hv. apply (Hfirst (S j) v); [lia | exact Hv].
           ++ intros j v Hj Hv. apply (Hfirst (S j) v); [lia | exact Hv].
      * intros k v Hk. by apply lookup_union_Some_l.
      * intros k Hk. by apply lookup_union_r.
    + eapply Forall_lookup_1 in Hspec; [|exact Hi]. cbn in Hspec. congruence.
Qed.

Lemma update_user_spec_witness :
  exists w1,
    OfflineMore.update_user Offline.offline_storage "bob@example.org"
      (<["is_verified" := VBool true]> ∅) world_with_users = (Returned true, w1) /\
    stored w1 (Offline.users_file Offline.offline_storage)
    = [user_row "ann@example.org" "Ann";
       <["is_verified" := VBool true]> ∅ ∪ user_row "bob@example.org" "Bob"].
Proof.
  destruct (proj2 (update_user_spec Offline.offline_storage "bob@example.org"
                     (<["is_verified" := VBool true]> ∅) world_with_users)
              1%nat (user_row "bob@example.org" "Bob") eq_refl eq_refl)
    as (w1 & Hu & Hs & _).
  - intros [|j] v Hj Hv; [|lia]. injection Hv as <-. reflexivity.
  - reflexivity.
  - exists w1. split; [exact Hu | exact Hs].
Defined.

(* ===================================================================== *)
(** ** Loading the models and scoring                                    *)
(* ===================================================================== *)

(** X7. [load_models] returns [True] exactly when both files exist and
    both load.  When it returns [False] the flag [models_loaded] and the
    health model are as before, yet the stress bundle may already have
    been replaced; a manager that was not loaded then still answers
    ["unknown"] to every stress prediction. *)
Theorem load_models_partial (self : ModelManager)
    (stress_pkl health_pkl : option (outcome estimator)) :
  let ok := fst (load_models self stress_pkl health_pkl) in
  let self' := snd (load_models self stress_pkl health_pkl) in
  (ok = true <->
   exists b h, stress_pkl = Some (Returned b) /\ health_pkl = Some (Returned h)) /\
  (forall b h, stress_pkl = Some (Returned b) -> health_pkl = Some (Returned h) ->
   self' = MkModelManager (Some b) (Some h) true) /\
  (ok = false -> models_loaded self' = models_loaded self /\
                 health_model self' = health_model self) /\
  (forall b, stress_pkl = Some (Returned b) -> ok = false ->
   stress_model_bundle self' = Some b /\
   (models_loaded self = false ->
    forall fd, predict_stress self' fd = MkStressResult "unknown" 0)).
Proof.
  cbn zeta. unfold load_models.
  destruct stress_pkl as [[b|e]|]; destruct health_pkl as [[h|e']|]; cbn;
    (split; [split; [try discriminate; intros _; eauto
                    | intros (b0 & h0 & Hb & Hh); congruence]|]);
    (split; [intros b0 h0 Hb Hh; congruence|]);
    (split; [try discriminate; auto|]);
    intros b0 Hb; try discriminate; intros _; injection Hb as <-;
    (split; [reflexivity|]); intros Hflag fd; unfold predict_stress; cbn;
    rewrite Hflag; reflexivity.
Qed.

Lemma stress_score_reads_five (fd1 fd2 : gmap string pyval) :
  (forall k, k ∈ scoring_features -> fd1 !! k = fd2 !! k) ->
  stress_score fd1 = stress_score fd2.
Proof.
  intros H. unfold stress_score, dict_get.
  rewrite (H "emotion"%string), (H "jaw_clench_score"%string),
    (H "posture_quality"%string), (H "mouth_open"%string),
    (H "eyebrow_raise"%string) by (unfold scoring_features; set_solver).
  reflexivity.
Qed.

(** X8. The answer of [predict_stress] depends on five features only: two
    feature mappings that agree on [emotion], [jaw_clench_score],
    [posture_quality], [mouth_open] and [eyebrow_raise] get the same
    prediction and confidence. *)
Theorem predict_stress_reads_five_features
    (self : ModelManager) (fd1 fd2 : gmap string pyval) :
  (forall k, k ∈ scoring_features -> fd1 !! k = fd2 !! k) ->
  predict_stress self fd1 = predict_stress self fd2.
Proof.
  intros H. unfold predict_stress. by rewrite (stress_score_reads_five fd1 fd2 H).
Qed.

Lemma predict_stress_reads_five_features_witness :
  predict_stress loaded_manager scan_angry
  = predict_stress loaded_manager (<["slouch_score" := VFloat 0.9]> scan_angry).
Proof.
  apply predict_stress_reads_five_features.
  intros k Hk. symmetry. apply lookup_insert_ne. intros <-.
  unfold scoring_features in Hk.
  repeat (apply elem_of_cons in Hk as [Hk|Hk]; [discriminate|]).
  by apply elem_of_nil in Hk.
Defined.

Lemma spec_emotion_term_range (v : pyval) :
  10 <= spec_emotion_term v /\ spec_emotion_term v <= 80.
Proof. unfold spec_emotion_term. repeat case_decide; split; discriminate. Qed.

Lemma spec_posture_term_range (v : pyval) :
  5 <= spec_posture_term v /\ spec_posture_term v <= 25.
Proof. unfold spec_posture_term. repeat case_decide; split; discriminate. Qed.

(** X9. For numeric features with a jaw score between 0 and 1 the stress
    score lies between 15 and 145; 145 is attained, and the empty mapping
    scores 45.  The score is thus not confined to 0..100. *)
Theorem stress_score_range (fd : gmap string pyval) (jaw mouth brow : Q) :
  feature_num fd "jaw_clench_score" = Some jaw ->
  feature_num fd "mouth_open" = Some mouth ->
  feature_num fd "eyebrow_raise" = Some brow ->
  0 <= jaw -> jaw <= 1 ->
  (exists s, stress_score fd = Returned s /\ 15 <= s /\ s <= 145) /\
  (exists s, stress_score (stress_features "angry" 1 "poor" 1 1) = Returned s /\
             s == 145) /\
  (exists s, stress_score ∅ = Returned s /\ s == 45).
Proof.
  intros Hjaw Hmouth Hbrow Hlo Hhi. split; [|split].
  - destruct (stress_score_formula fd jaw mouth brow Hjaw Hmouth Hbrow)
      as (s & Hs & Hformula).
    exists s. split; [exact Hs|]. rewrite Hformula. unfold spec_stress_score.
    pose proof (spec_emotion_term_range (dict_get fd "emotion" (VStr "neutral"))).
    pose proof (spec_posture_term_range (dict_get fd "posture_quality" (VStr "unknown"))).
    destruct (Qlt_le_dec 0.03 mouth), (Qlt_le_dec 0.1 brow); split; lra.
  - eexists. split; [vm_compute; reflexivity | reflexivity].
  - eexists. split; [vm_compute; reflexivity | reflexivity].
Qed.

Lemma stress_score_range_witness :
  exists s, stress_score scan_angry = Returned s /\ 15 <= s /\ s <= 145.
Proof.
  apply (proj1 (stress_score_range scan_angry 0.5 0.05 0.2
                  eq_refl eq_refl eq_refl ltac:(lra) ltac:(lra))).
Defined.

(** X10. With the other features fixed, a larger jaw score never gives a
    smaller stress score, so it never moves the prediction of a ready
    manager towards a lower level. *)
Theorem stress_score_monotone_in_jaw
    (self : ModelManager) (fd : gmap string pyval) (j1 j2 mouth brow : Q) :
  stress_model_ready self ->
  feature_num fd "mouth_open" = Some mouth ->
  feature_num fd "eyebrow_raise" = Some brow ->
  j1 <= j2 ->
  let fd1 := <["jaw_clench_score" := VFloat j1]> fd in
  let fd2 := <["jaw_clench_score" := VFloat j2]> fd in
  exists s1 s2,
    stress_score fd1 = Returned s1 /\ stress_score fd2 = Returned s2 /\
    s1 <= s2 /\
    (stress_prediction (predict_stress self fd2) = "low"%string ->
     stress_prediction (predict_stress self fd1) = "low"%string) /\
    (stress_prediction (predict_stress self fd1) = "high"%string ->
     stress_prediction (predict_stress self fd2) = "high"%string).
Proof.
  intros Hready Hmouth Hbrow Hle fd1 fd2. subst fd1 fd2.
  assert (Hf : forall j k, k <> "jaw_clench_score"%string ->
             feature_num (<["jaw_clench_score" := VFloat j]> fd) k = feature_num fd k).
  { intros j k Hk. unfold feature_num, dict_get. by rewrite lookup_insert_ne. }
  assert (Hj : forall j, feature_num (<["jaw_clench_score" := VFloat j]> fd)
                           "jaw_clench_score" = Some j).
  { intros j. unfold feature_num, dict_get. by rewrite lookup_insert_eq. }
  assert (Hd : forall j k d, k <> "jaw_clench_score"%string ->
             dict_get (<["jaw_clench_score" := VFloat j]> fd) k d = dict_get fd k d).
  { intros j k d Hk. unfold dict_get. by rewrite lookup_insert_ne. }
  destruct (stress_score_formula _ j1 mouth brow (Hj j1)) as (s1 & Hs1 & Hf1);
    [by rewrite Hf | by rewrite Hf |].
  destruct (stress_score_formula _ j2 mouth brow (Hj j2)) as (s2 & Hs2 & Hf2);
    [by rewrite Hf | by rewrite Hf |].
  rewrite !Hd in Hf1, Hf2 by discriminate.
  assert (Hs : s1 <= s2).
  { rewrite Hf1, Hf2. unfold spec_stress_score.
    destruct (Qlt_le_dec 0.03 mouth), (Qlt_le_dec 0.1 brow); lra. }
  exists s1, s2. split; [exact Hs1|]. split; [exact Hs2|]. split; [exact Hs|].
  rewrite (predict_stress_ready self _ s1 Hready Hs1),
    (predict_stress_ready self _ s2 Hready Hs2), !classify_stress_bucket.
  unfold spec_bucket.
  destruct (Qlt_le_dec s1 35), (Qlt_le_dec s2 35), (Qlt_le_dec s1 60),
    (Qlt_le_dec s2 60); split; intros; try reflexivity; try discriminate;
    exfalso; lra.
Qed.

Lemma stress_score_monotone_in_jaw_witness :
  exists s1 s2,
    stress_score (<["jaw_clench_score" := VFloat 0.1]> scan_inside) = Returned s1 /\
    stress_score (<["jaw_clench_score" := VFloat 0.9]> scan_inside) = Returned s2 /\
    s1 <= s2.
Proof.
  destruct (stress_score_monotone_in_jaw loaded_manager scan_inside 0.1 0.9 0 0
              loaded_manager_ready eq_refl eq_refl ltac:(lra))
    as (s1 & s2 & H1 & H2 & Hle & _).
  exists s1, s2. split; [exact H1|]. split; [exact H2 | exact Hle].
Defined.

(* ===================================================================== *)
(** ** The inputs of the wellness model                                  *)
(* ===================================================================== *)

Ltac lookup_body :=
  unfold dict_get, habit_body, HabitSubmission_dict;
  repeat (rewrite lookup_insert_ne by discriminate);
  try rewrite lookup_insert_eq; try rewrite lookup_empty; cbn [default with_caffeine
    user_id age sleep_hours work_hours screen_time water_intake exercise
    meals_per_day social_interaction caffeine_intake].

Lemma wellness_inputs_of_body (E : env) (data : HabitSubmission) (w : world) :
  wellness_inputs (habit_body E data w)
  = <["age" := VInt (age data)]>
    (<["sleep_hours" := VFloat (sleep_hours data)]>
    (<["work_hours" := VFloat (work_hours data)]>
    (<["screen_time" := VFloat (screen_time data)]>
    (<["water_intake" := VFloat (water_intake data)]>
    (<["exercise" := VBool (exercise data)]>
    (<["caffine_intake" := VInt 0]>
    (<["meals_per_day" := VInt (meals_per_day data)]>
    (<["social_interaction" := VStr (social_interaction data)]> ∅)))))))).
Proof.
  unfold wellness_inputs.
  repeat (f_equal; [lookup_body; reflexivity|]). reflexivity.
Qed.

(** X11. The record [habits] builds carries the flag under
    [caffeine_intake], while [predict_wellness] reads [caffine_intake]:
    the model always sees the default 0 there, and the wellness
    prediction does not depend on the submitted caffeine flag. *)
Theorem predict_wellness_ignores_caffeine
    (E : env) (mm : ModelManager) (data : HabitSubmission) (flag : bool) (w : world) :
  wellness_inputs (habit_body E data w) !! "caffine_intake" = Some (VInt 0) /\
  wellness_inputs (habit_body E data w) !! "caffeine_intake" = None /\
  habit_body E data w !! "caffeine_intake" = Some (VBool (caffeine_intake data)) /\
  predict_wellness mm (habit_body E (with_caffeine data flag) w)
  = predict_wellness mm (habit_body E data w).
Proof.
  split; [|split; [|split]].
  - by rewrite wellness_inputs_of_body.
  - by rewrite wellness_inputs_of_body.
  - lookup_body. reflexivity.
  - unfold predict_wellness. rewrite !wellness_inputs_of_body. reflexivity.
Qed.

(* ===================================================================== *)
(** ** Formatting stored scans                                           *)
(* ===================================================================== *)

Ltac lookup_features :=
  unfold dict_get, App.scan_features;
  repeat (rewrite lookup_insert_ne by discriminate);
  rewrite lookup_insert_eq; cbn [default].

Lemma rescore_emotion (scan : gmap string pyval) :
  table_get emotion_scores (dict_get (App.scan_features scan) "emotion" (VStr "neutral")) 30
  = table_get emotion_scores (dict_get scan "emotion" (VStr "neutral")) 30.
Proof.
  lookup_features. unfold dict_get_none, dict_get.
  destruct (scan !! "emotion"); reflexivity.
Qed.

Lemma rescore_posture (scan : gmap string pyval) :
  table_get posture_scores
    (dict_get (App.scan_features scan) "posture_quality" (VStr "unknown")) 15
  = table_get posture_scores (dict_get scan "posture_quality" (VStr "unknown")) 15.
Proof.
  lookup_features. unfold dict_get_none, dict_get.
  destruct (scan !! "posture_quality"); reflexivity.
Qed.

Lemma rescore_numeric (scan : gmap string pyval) (k : string) :
  k ∈ ["jaw_clench_score"; "mouth_open"; "eyebrow_raise"]%string ->
  dict_get (App.scan_features scan) k (VFloat 0) = dict_get_none scan k.
Proof.
  intros Hk. repeat (apply elem_of_cons in Hk as [->|Hk]);
    [lookup_features; reflexivity ..|]. by apply elem_of_nil in Hk.
Qed.

Lemma rescoring_present (mm : ModelManager) (scan : gmap string pyval) :
  is_Some (scan !! "jaw_clench_score") ->
  is_Some (scan !! "mouth_open") ->
  is_Some (scan !! "eyebrow_raise") ->
  predict_stress mm (App.scan_features scan) = predict_stress mm scan.
Proof.
  intros [j Hj] [m Hm] [b Hb]. unfold predict_stress. f_equal.
  unfold stress_score. rewrite rescore_emotion, rescore_posture.
  rewrite !rescore_numeric by (repeat constructor).
  unfold dict_get_none, dict_get. rewrite Hj, Hm, Hb. reflexivity.
Qed.

(** X12. The feature mapping [get_scans] rebuilds from a stored row is
    scored like the row itself when the row has its three numeric
    columns; when one of them is missing the rebuilt mapping holds [None]
    there and a ready manager answers ["medium"] with confidence 0. *)
Theorem rescoring_agrees_with_scoring
    (mm : ModelManager) (scan : gmap string pyval) :
  (is_Some (scan !! "jaw_clench_score") ->
   is_Some (scan !! "mouth_open") ->
   is_Some (scan !! "eyebrow_raise") ->
   predict_stress mm (App.scan_features scan) = predict_stress mm scan) /\
  (stress_model_ready mm ->
   scan !! "jaw_clench_score" = None \/ scan !! "mouth_open" = None \/
   scan !! "eyebrow_raise" = None ->
   predict_stress mm (App.scan_features scan) = MkStressResult "medium" 0).
Proof.
  split.
  - apply rescoring_present.
  - intros [Hflag Hbundle] Hmissing. unfold predict_stress.
    rewrite Hflag, Hbundle. cbn [negb orb].
    unfold stress_score. rewrite !rescore_numeric by (repeat constructor).
    unfold dict_get_none, dict_get, py_mul_100_03, py_gt_const.
    destruct Hmissing as [H|[H|H]]; rewrite H; cbn [default as_num obind].
    + reflexivity.
    + destruct (as_num (default VNone (scan !! "jaw_clench_score"))); reflexivity.
    + destruct (as_num (default VNone (scan !! "jaw_clench_score")));
        [|reflexivity]. cbn [obind].
      destruct (as_num (default VNone (scan !! "mouth_open"))); reflexivity.
Qed.

Lemma rescoring_agrees_with_scoring_witness :
  predict_stress loaded_manager (App.scan_features full_scan_row)
  = predict_stress loaded_manager full_scan_row.
Proof.
  apply (proj1 (rescoring_agrees_with_scoring loaded_manager full_scan_row));
    eexists; reflexivity.
Defined.

Lemma format_scans_foldl (E : env) (mm : ModelManager)
    (acc l : list (gmap string pyval)) :
  foldl (fun scans scan =>
           match App.format_scan E mm scan with
           | Returned entry => scans ++ [entry]
           | Raised _ => scans
           end) acc l
  = acc ++ omap (format_scan_opt E mm) l.
Proof.
  revert acc. induction l as [|x l IH]; intros acc; cbn [foldl].
  - symmetry. apply app_nil_r.
  - rewrite IH.
    assert (Hstep : omap (format_scan_opt E mm) (x :: l)
                    = match format_scan_opt E mm x with
                      | Some y => y :: omap (format_scan_opt E mm) l
                      | None => omap (format_scan_opt E mm) l
                      end) by reflexivity.
    rewrite Hstep. unfold format_scan_opt at 2 3.
    destruct (App.format_scan E mm x) as [entry|e]; [|reflexivity].
    by rewrite <- app_assoc.
Qed.

Lemma omap_step {A B} (f : A -> option B) (x : A) (l : list A) :
  omap f (x :: l) = match f x with Some y => y :: omap f l | None => omap f l end.
Proof. reflexivity. Qed.

Lemma omap_length_le {A B} (f : A -> option B) (l : list A) :
  (length (omap f l) <= length l)%nat.
Proof.
  induction l as [|x l IH]; [reflexivity|].
  change (omap f (x :: l))
    with (match f x with Some y => y :: omap f l | None => omap f l end).
  destruct (f x); simpl; lia.
Qed.

(** X13. The loop of [get_scans] formats each row on its own: the entries
    of a concatenation are the entries of its parts, there are never more
    entries than rows, a row that formats gives exactly one entry at its
    place, and a row whose confidence or jaw column [float] rejects is
    left out without touching the others. *)
Theorem format_scans_skips_bad_rows (E : env) (mm : ModelManager)
    (l1 l2 : list (gmap string pyval)) (scan : gmap string pyval) :
  App.format_scans E mm (l1 ++ l2)
  = App.format_scans E mm l1 ++ App.format_scans E mm l2 /\
  (length (App.format_scans E mm l1) <= length l1)%nat /\
  ((exists entry, App.format_scan E mm scan = Returned entry) ->
   App.format_scans E mm (l1 ++ scan :: l2)
   = App.format_scans E mm l1 ++ App.format_scans E mm [scan]
     ++ App.format_scans E mm l2 /\
   length (App.format_scans E mm [scan]) = 1%nat) /\
  ((forall c j,
      App.py_float E (dict_get scan "emotion_confidence" (VFloat 0.5)) = Returned c ->
      App.py_float E (dict_get scan "jaw_clench_score" (VFloat 0)) = Returned j ->
      False) ->
   App.format_scans E mm (l1 ++ scan :: l2)
   = App.format_scans E mm l1 ++ App.format_scans E mm l2).
Proof.
  unfold App.format_scans. rewrite !format_scans_foldl. cbn [app].
  split; [apply omap_app|]. split; [apply omap_length_le|]. split.
  - intros [entry Hentry]. rewrite omap_app, !omap_step.
    assert (Ho : format_scan_opt E mm scan = Some entry)
      by (unfold format_scan_opt; by rewrite Hentry).
    rewrite Ho. split; reflexivity.
  - intros Hbad. rewrite omap_app, omap_step.
    assert (Ho : format_scan_opt E mm scan = None); [|by rewrite Ho].
    unfold format_scan_opt, App.format_scan.
    destruct (App.py_float E (dict_get scan "emotion_confidence" (VFloat 0.5)))
      as [c|e] eqn:Hc; cbn [obind]; [|reflexivity].
    destruct (App.py_float E (dict_get scan "jaw_clench_score" (VFloat 0)))
      as [j|e] eqn:Hj; cbn [obind]; [|reflexivity].
    exfalso. by apply (Hbad c j).
Qed.

Lemma format_scans_skips_bad_rows_witness :
  App.format_scans sample_env loaded_manager
    ([full_scan_row] ++ unreadable_scan_row :: [full_scan_row])
  = App.format_scans sample_env loaded_manager [full_scan_row]
    ++ App.format_scans sample_env loaded_manager [full_scan_row].
Proof.
  apply (proj2 (proj2 (proj2 (format_scans_skips_bad_rows sample_env loaded_manager
                  [full_scan_row] [full_scan_row] unreadable_scan_row)))).
  intros c j Hc _. vm_compute in Hc. discriminate Hc.
Defined.

(** X14. While the stress model is not ready every entry of [get_scans]
    carries the prediction ["unknown"] with confidence 0 and, since
    ["unknown"] is neither ["low"] nor ["medium"], an overall stress
    of 80. *)
Theorem format_scan_without_models
    (E : env) (mm : ModelManager) (scan entry : gmap string pyval) :
  ~ stress_model_ready mm ->
  App.format_scan E mm scan = Returned entry ->
  entry !! "stressPrediction" = Some (VStr "unknown") /\
  entry !! "stressConfidence" = Some (VFloat 0) /\
  entry !! "overallStress" = Some (VFloat 80).
Proof.
  intros Hnot Hfmt.
  assert (Hp : predict_stress mm (App.scan_features scan) = MkStressResult "unknown" 0).
  { unfold predict_stress, stress_model_ready in *.
    destruct (models_loaded mm); [|reflexivity].
    destruct (py_bool (stress_model_bundle mm)); [|reflexivity].
    exfalso. apply Hnot. split; reflexivity. }
  unfold App.format_scan in Hfmt. rewrite Hp in Hfmt.
  destruct (App.py_float E _) as [c|e]; [|discriminate]. cbn [obind] in Hfmt.
  destruct (App.py_float E _) as [j|e]; [|discriminate]. cbn [obind] in Hfmt.
  injection Hfmt as <-. cbn [stress_prediction stress_confidence].
  repeat split.
Qed.

Lemma format_scan_without_models_witness :
  exists entry,
    App.format_scan sample_env ModelManager_init full_scan_row = Returned entry /\
    entry !! "overallStress" = Some (VFloat 80).
Proof.
  destruct (returned_of_check
              (App.format_scan sample_env ModelManager_init full_scan_row))
    as [entry Hf]; [vm_compute; reflexivity|].
  exists entry. split; [exact Hf|].
  refine (proj2 (proj2 (format_scan_without_models sample_env ModelManager_init
                          full_scan_row entry _ Hf))).
  intros [Hl _]. discriminate Hl.
Defined.

(* ===================================================================== *)
(** ** Taking a scan                                                     *)
(* ===================================================================== *)

Lemma stress_score_ext (fd1 fd2 : gmap string pyval) :
  dict_get fd1 "emotion" (VStr "neutral") = dict_get fd2 "emotion" (VStr "neutral") ->
  dict_get fd1 "jaw_clench_score" (VFloat 0) = dict_get fd2 "jaw_clench_score" (VFloat 0) ->
  dict_get fd1 "posture_quality" (VStr "unknown")
    = dict_get fd2 "posture_quality" (VStr "unknown") ->
  dict_get fd1 "mouth_open" (VFloat 0) = dict_get fd2 "mouth_open" (VFloat 0) ->
  dict_get fd1 "eyebrow_raise" (VFloat 0) = dict_get fd2 "eyebrow_raise" (VFloat 0) ->
  stress_score fd1 = stress_score fd2.
Proof. unfold stress_score. by intros -> -> -> -> ->. Qed.

Ltac lookup_entry :=
  unfold dict_get, AppMore.scan_entry, AppMore.scan_response_data;
  repeat (first [ rewrite lookup_delete_ne by discriminate
                | rewrite lookup_insert_ne by discriminate ]);
  first [ rewrite lookup_insert_eq | rewrite lookup_delete_eq | rewrite lookup_empty ].

Ltac run_scan :=
  unfold AppMore.scan, AppMore.scan_try;
  unfold try_except, bind, uuid4, iso_now, supabase_insert, lift, ret, raise;
  step.

(** X15. [scan] always returns and never touches the fallback store.
    When analysis and image saving succeed it reports success with the
    response data, and stores one row in [stress_scan] only if a non-empty
    user id was given and the insert succeeds; a failing insert is
    swallowed.  Any other failure is answered with ["Scan failed"] and
    stores nothing. *)
Theorem scan_never_uses_fallback
    (E : env) (mm : ModelManager) (analysis : outcome (gmap string pyval))
    (save_fault : option exn) (user_id_form : option string) (w : world) :
  exists reply w',
    AppMore.scan E mm analysis save_fault user_id_form w = (Returned reply, w') /\
    files w' = files w /\ disk_faults w' = disk_faults w /\
    (forall features, analysis = Returned features -> save_fault = None ->
     let data := AppMore.scan_response_data features (predict_stress mm features)
                   (uuid4_at E (uuid_calls w)) (utcnow_at E (clock_reads w)) in
     reply = ScanSuccess data /\
     (forall u, user_of user_id_form = Some u -> primary_reachable w ->
      primary_rows w' = primary_rows w ++ [("stress_scan"%string, AppMore.scan_entry data u)]) /\
     (forall u e, user_of user_id_form = Some u -> primary_raises w e ->
      primary_rows w' = primary_rows w) /\
     (user_of user_id_form = None ->
      primary_rows w' = primary_rows w /\ primary_faults w' = primary_faults w)) /\
    (forall e, analysis = Raised e \/ (exists f, analysis = Returned f) /\ save_fault = Some e ->
     reply = ScanFailure "Scan failed" (exn_msg e) /\ primary_rows w' = primary_rows w).
Proof.
  run_scan. fold (user_of user_id_form).
  destruct analysis as [features|e0]; step.
  - destruct save_fault as [e1|]; step.
    + eexists _, _. split; [reflexivity|]. split; [reflexivity|].
      split; [reflexivity|]. split; [discriminate|].
      intros e' [H|[_ H]]; [discriminate|]. injection H as <-.
      split; reflexivity.
    + destruct (user_of user_id_form) as [u|]; step.
      * destruct (next_fault (primary_faults w)) as [[e|] rest] eqn:Hnf; step.
        -- eexists _, _. split; [reflexivity|]. split; [reflexivity|].
           split; [reflexivity|]. split.
           ++ intros f [= <-] _. cbn zeta. split; [reflexivity|]. split; [|split].
              ** unfold primary_reachable. rewrite Hnf. discriminate.
              ** reflexivity.
              ** discriminate.
           ++ intros e' [H|[_ H]]; discriminate.
        -- eexists _, _. split; [reflexivity|]. split; [reflexivity|].
           split; [reflexivity|]. split.
           ++ intros f [= <-] _. cbn zeta. split; [reflexivity|]. split; [|split].
              ** intros u' [= <-] _. reflexivity.
              ** unfold primary_raises. rewrite Hnf. discriminate.
              ** discriminate.
           ++ intros e' [H|[_ H]]; discriminate.
      * eexists _, _. split; [reflexivity|]. split; [reflexivity|].
        split; [reflexivity|]. split.
        -- intros f [= <-] _. cbn zeta. split; [reflexivity|]. split; [|split].
           ++ discriminate.
           ++ discriminate.
           ++ intros _. split; reflexivity.
        -- intros e' [H|[_ H]]; discriminate.
  - eexists _, _. split; [reflexivity|]. split; [reflexivity|].
    split; [reflexivity|]. split; [discriminate|].
    intros e' [[= <-]|[[f Hf] _]]; [|discriminate]. split; reflexivity.
Qed.

Lemma scan_entry_get (features : gmap string pyval) (p : stress_result)
    (id ts u k : string) (d : pyval) :
  k ∈ ["emotion"; "jaw_clench_score"; "posture_quality"; "mouth_open";
       "eyebrow_raise"]%string ->
  AppMore.scan_entry (AppMore.scan_response_data features p id ts) u !! k
  = AppMore.scan_response_data features p id ts !! k.
Proof.
  intros Hk. unfold AppMore.scan_entry.
  repeat (apply elem_of_cons in Hk as [->|Hk]);
    [ rewrite !lookup_delete_ne, lookup_insert_ne by discriminate; reflexivity ..|].
  by apply elem_of_nil in Hk.
Qed.

(** X16. The row [scan] stores has the user id and neither prediction
    field; rescoring that row as [get_scans] does gives back the
    prediction [scan] answered with, so a listed entry shows the same
    prediction, confidence, id and timestamp. *)
Theorem stored_scan_rescored_on_read
    (E : env) (mm : ModelManager) (features : gmap string pyval)
    (id ts u : string) (shown : gmap string pyval) :
  let prediction := predict_stress mm features in
  let entry := AppMore.scan_entry
                 (AppMore.scan_response_data features prediction id ts) u in
  entry !! "stressPrediction" = None /\
  entry !! "stressConfidence" = None /\
  entry !! "user_id" = Some (VStr u) /\
  predict_stress mm (App.scan_features entry) = prediction /\
  (App.format_scan E mm entry = Returned shown ->
   shown !! "stressPrediction" = Some (VStr (stress_prediction prediction)) /\
   shown !! "stressConfidence" = Some (VFloat (stress_confidence prediction)) /\
   shown !! "id" = Some (VStr id) /\
   shown !! "timestamp" = Some (VStr ts)).
Proof.
  intros prediction entry.
  assert (Hre : predict_stress mm (App.scan_features entry) = prediction).
  { transitivity (predict_stress mm entry).
    - apply rescoring_present; subst entry;
        rewrite scan_entry_get by (repeat constructor);
        unfold AppMore.scan_response_data;
        repeat (rewrite lookup_insert_ne by discriminate);
        rewrite lookup_insert_eq; by eexists.
    - subst prediction. unfold predict_stress. f_equal. }
  split; [subst entry; unfold AppMore.scan_entry;
          rewrite lookup_delete_ne by discriminate; apply lookup_delete_eq|].
  split; [subst entry; unfold AppMore.scan_entry; apply lookup_delete_eq|].
  split; [subst entry; unfold AppMore.scan_entry;
          rewrite !lookup_delete_ne by discriminate; apply lookup_insert_eq|].
  split; [exact Hre|].
  unfold App.format_scan. rewrite Hre.
  destruct (App.py_float E _) as [c|e]; [|discriminate]. cbn [obind].
  destruct (App.py_float E _) as [j|e]; [|discriminate]. cbn [obind].
  intros Hshown.
  assert (Heq : forall a b : gmap string pyval,
            @Returned (gmap string pyval) a = Returned b -> a = b)
    by (intros a b [= ->]; reflexivity).
  apply Heq in Hshown. rewrite <- Hshown. repeat split.
Qed.

(* ===================================================================== *)
(** ** The latest scan                                                   *)
(* ===================================================================== *)

(** X17. [get_latest_scan] has no fallback: whatever error the remote
    store raises, a network error included, it raises the HTTP 500 error
    ["Failed to fetch latest scan"] and leaves the stores as they are. *)
Theorem latest_scan_has_no_fallback
    (E : env) (mm : ModelManager) (w : world) (e : exn) :
  primary_raises w e ->
  AppMore.get_latest_scan E mm w
  = (Raised (HTTPException_500 "Failed to fetch latest scan"),
     after_primary_call w).
Proof.
  unfold primary_raises, after_primary_call. intros Hp.
  unfold AppMore.get_latest_scan, try_except, bind, supabase_select, raise. step.
  destruct (next_fault (primary_faults w)) as [f rest]. cbn in Hp. subst f.
  reflexivity.
Qed.

Lemma latest_scan_has_no_fallback_witness :
  AppMore.get_latest_scan sample_env loaded_manager world_primary_down
  = (Raised (HTTPException_500 "Failed to fetch latest scan"),
     after_primary_call world_primary_down).
Proof.
  apply (latest_scan_has_no_fallback sample_env loaded_manager
           world_primary_down connect_error).
  reflexivity.
Defined.

(** X18. For one stored row, [get_scans] and [get_latest_scan] agree on
    prediction, confidence and overall stress, but not on the posture
    value: a ["fair"] posture is 60 in the list and 30 in the latest
    scan; for every other posture the two values are equal. *)
Theorem posture_quality_differs_between_endpoints
    (E : env) (mm : ModelManager) (scan listed latest : gmap string pyval) :
  App.format_scan E mm scan = Returned listed ->
  AppMore.latest_scan_data mm scan = Returned latest ->
  listed !! "stressPrediction" = latest !! "stressPrediction" /\
  listed !! "stressConfidence" = latest !! "stressConfidence" /\
  listed !! "overallStress" = latest !! "overallStress" /\
  (scan !! "posture_quality" = Some (VStr "fair") ->
   listed !! "postureQuality" = Some (VFloat 60) /\
   latest !! "postureQuality" = Some (VFloat 30)) /\
  (scan !! "posture_quality" <> Some (VStr "fair") ->
   listed !! "postureQuality" = latest !! "postureQuality").
Proof.
  unfold App.format_scan, AppMore.latest_scan_data.
  destruct (App.py_float E _) as [c|?]; [|discriminate]. cbn [obind].
  destruct (App.py_float E _) as [j|?]; [|discriminate]. cbn [obind].
  intros [= <-].
  destruct (dict_getitem scan "id") as [i|?]; [|discriminate]. cbn [obind].
  destruct (dict_getitem scan "emotion") as [em|?]; [|discriminate]. cbn [obind].
  destruct (dict_getitem scan "emotion_confidence") as [ec|?]; [|discriminate].
  cbn [obind].
  destruct (dict_getitem scan "jaw_clench_score") as [jc|?]; [|discriminate].
  cbn [obind].
  destruct (py_mul_100 jc) as [jt|?]; [|discriminate]. cbn [obind].
  destruct (dict_getitem scan "scanned_at") as [sa|?]; [|discriminate].
  cbn [obind]. intros [= <-].
  split; [reflexivity|]. split; [reflexivity|]. split; [reflexivity|].
  unfold dict_get_none, dict_get. split.
  - intros ->. split; reflexivity.
  - intros Hne.
    repeat (rewrite lookup_insert_ne by discriminate). rewrite !lookup_insert_eq.
    destruct (scan !! "posture_quality") as [v|] eqn:Hv; cbn [default].
    + repeat case_decide; unfold id in *; subst; try reflexivity; congruence.
    + reflexivity.
Qed.

Lemma posture_quality_differs_between_endpoints_witness :
  exists listed latest,
    App.format_scan sample_env loaded_manager full_scan_row = Returned listed /\
    AppMore.latest_scan_data loaded_manager full_scan_row = Returned latest /\
    listed !! "postureQuality" = Some (VFloat 60) /\
    latest !! "postureQuality" = Some (VFloat 30).
Proof.
  destruct (returned_of_check
              (App.format_scan sample_env loaded_manager full_scan_row))
    as [listed Hf]; [vm_compute; reflexivity|].
  destruct (returned_of_check
              (AppMore.latest_scan_data loaded_manager full_scan_row))
    as [latest Hl]; [vm_compute; reflexivity|].
  exists listed, latest. split; [exact Hf|]. split; [exact Hl|].
  apply (posture_quality_differs_between_endpoints sample_env loaded_manager
           full_scan_row listed latest Hf Hl).
  reflexivity.
Defined.

(* ===================================================================== *)
(** ** Listing habits                                                    *)
(* ===================================================================== *)

Lemma habit_entries_bad (total : nat) (avg : pyval) (rows : list (gmap string pyval)) :
  (exists h, h ∈ rows /\ (h !! "id" = None \/ h !! "created_at" = None)) ->
  exists key, AppMore.habit_entries total avg rows = Raised (MkExn "KeyError" key).
Proof.
  induction rows as [|x rows IH]; intros (h & Hin & Hbad).
  - by apply elem_of_nil in Hin.
  - cbn [AppMore.habit_entries]. unfold AppMore.habit_entry, dict_getitem.
    destruct (x !! "id") as [i|] eqn:Hi; cbn [obind]; [|by eexists].
    destruct (x !! "created_at") as [c|] eqn:Hc; cbn [obind]; [|by eexists].
    apply elem_of_cons in Hin as [->|Hin].
    + destruct Hbad; congruence.
    + destruct IH as [key ->]; [by exists h|]. by eexists.
Qed.

Lemma get_habits_try_reachable (E : env) (limit : Z) (w : world) :
  primary_reachable w ->
  let rows := select_rows E "habits" "created_at" limit in
  AppMore.get_habits_try E limit w
  = (obind (if bool_decide (rows = []) then Returned 0
            else py_sum_values 0 (map (fun h => dict_get h "sleep_hours" (VInt 0)) rows))
       (fun total_sleep =>
        obind (AppMore.habit_entries (length rows)
                 (if bool_decide (rows = []) then VInt 0
                  else VFloat (total_sleep / nat_to_Q (length rows))) rows)
          (fun entries => Returned (App.MkScansResponse true entries))),
     after_primary_call w).
Proof.
  unfold primary_reachable, after_primary_call. intros Hp.
  set (rows := select_rows E "habits" "created_at" limit).
  unfold AppMore.get_habits_try, try_except, bind, supabase_select, lift, ret. step.
  destruct (next_fault (primary_faults w)) as [f rest]. cbn in Hp. subst f. step.
  fold rows.
  destruct (if bool_decide (rows = []) then _ else _) as [t|e]; cbn [obind];
    [|reflexivity].
  destruct (AppMore.habit_entries _ _ _); reflexivity.
Qed.

(** X19. [get_habits] formats all rows or none: when the remote store
    answers and one row lacks [id] or [created_at], the answer is success
    with an empty list, however many rows are well formed. *)
Theorem get_habits_all_or_nothing
    (E : env) (is_HTTPException : exn -> bool) (limit : Z) (w : world) :
  not_http is_HTTPException ->
  primary_reachable w ->
  (exists h, h ∈ select_rows E "habits" "created_at" limit /\
             (h !! "id" = None \/ h !! "created_at" = None)) ->
  AppMore.get_habits E is_HTTPException limit w
  = (Returned (App.MkScansResponse true []), after_primary_call w).
Proof.
  intros Hhttp Hp Hbad.
  unfold AppMore.get_habits, try_except.
  rewrite (get_habits_try_reachable E limit w Hp). cbn zeta.
  assert (Hty : forall msg, is_HTTPException (TypeError msg) = false).
  { intros msg. destruct (is_HTTPException _) eqn:H; [|reflexivity].
    apply Hhttp in H. discriminate. }
  assert (Hkey : forall key, is_HTTPException (MkExn "KeyError" key) = false).
  { intros key. destruct (is_HTTPException _) eqn:H; [|reflexivity].
    apply Hhttp in H. discriminate. }
  destruct (if bool_decide (_ = []) then _ else _) as [t|e] eqn:Hsum; cbn [obind].
  - destruct (habit_entries_bad (length (select_rows E "habits" "created_at" limit))
                (if bool_decide (select_rows E "habits" "created_at" limit = [])
                 then VInt 0
                 else VFloat (t / nat_to_Q (length (select_rows E "habits" "created_at" limit))))
                _ Hbad) as [key ->].
    cbn [obind]. by rewrite Hkey.
  - case_bool_decide; [discriminate|].
    assert (exists msg, e = TypeError msg) as [msg ->].
    { clear -Hsum. revert Hsum. generalize 0.
      induction (map _ _) as [|v l IH]; intros acc; cbn [py_sum_values];
        [discriminate|].
      destruct (as_num v); [apply IH|]. intros [= <-]. by eexists. }
    by rewrite Hty.
Qed.

Lemma get_habits_all_or_nothing_witness :
  AppMore.get_habits (env_with_habits broken_habits) is_HTTPException_by_name 5
    world_reachable
  = (Returned (App.MkScansResponse true []), after_primary_call world_reachable).
Proof.
  apply get_habits_all_or_nothing.
  - intros e He. apply String.eqb_eq. exact He.
  - reflexivity.
  - exists (habit_row_no_id "2024-03-01T08:00:00+00:00" 6). split.
    + apply list_elem_of_further, list_elem_of_here.
    + left. reflexivity.
Defined.

Lemma py_sum_values_ok (acc : Q) (rows : list (gmap string pyval)) :
  Forall habit_row_ok rows ->
  py_sum_values acc (map (fun h => dict_get h "sleep_hours" (VInt 0)) rows)
  = Returned (foldl Qplus acc (map sleep_of rows)).
Proof.
  revert acc. induction rows as [|h rows IH]; intros acc Hok; [reflexivity|].
  apply Forall_cons in Hok as [(_ & _ & [q Hq]) Hrest].
  cbn [map py_sum_values foldl]. unfold sleep_of at 1. rewrite Hq. cbn [default].
  by apply IH.
Qed.

Lemma habit_entries_ok (total : nat) (avg : pyval) (rows : list (gmap string pyval)) :
  Forall habit_row_ok rows ->
  exists entries,
    AppMore.habit_entries total avg rows = Returned entries /\
    length entries = length rows /\
    forall i h, rows !! i = Some h ->
      exists entry,
        entries !! i = Some entry /\
        entry !! "id" = h !! "id" /\
        entry !! "timestamp" = h !! "created_at" /\
        entry !! "sleepHours" = Some (dict_get_none h "sleep_hours") /\
        entry !! "totalHabits" = Some (VInt (Z.of_nat total)) /\
        entry !! "avgSleep" = Some avg.
Proof.
  induction rows as [|x rows IH]; intros Hok.
  - exists []. split; [reflexivity|]. split; [reflexivity|]. intros i h Hi.
    by rewrite lookup_nil in Hi.
  - apply Forall_cons in Hok as [([vi Hvi] & [vc Hvc] & _) Hrest].
    destruct (IH Hrest) as (entries & Hentries & Hlen & Hall).
    cbn [AppMore.habit_entries]. unfold AppMore.habit_entry, dict_getitem.
    rewrite Hvi, Hvc. cbn [obind]. rewrite Hentries. cbn [obind].
    eexists. split; [reflexivity|]. split; [simpl; by rewrite Hlen|].
    intros [|i] h Hi.
    + cbn in Hi. injection Hi as <-. eexists. split; [reflexivity|].
      rewrite Hvi, Hvc. repeat split.
    + cbn in Hi. destruct (Hall i h Hi) as (entry & He & Hrest').
      exists entry. split; [exact He | exact Hrest'].
Qed.

(** X20. When the remote store answers with rows that all have [id],
    [created_at] and a numeric [sleep_hours] (absent counts as 0),
    [get_habits] returns one entry per row, in order, each with the row's
    id and timestamp, the number of rows as [totalHabits] and the mean of
    the sleep hours as [avgSleep]. *)
Theorem get_habits_summary
    (E : env) (is_HTTPException : exn -> bool) (limit : Z) (w : world) :
  let rows := select_rows E "habits" "created_at" limit in
  primary_reachable w ->
  Forall habit_row_ok rows ->
  exists entries,
    AppMore.get_habits E is_HTTPException limit w
    = (Returned (App.MkScansResponse true entries), after_primary_call w) /\
    length entries = length rows /\
    forall i h, rows !! i = Some h ->
      exists entry,
        entries !! i = Some entry /\
        entry !! "id" = h !! "id" /\
        entry !! "timestamp" = h !! "created_at" /\
        entry !! "sleepHours" = Some (dict_get_none h "sleep_hours") /\
        entry !! "totalHabits" = Some (VInt (Z.of_nat (length rows))) /\
        entry !! "avgSleep" = Some (VFloat (mean (map sleep_of rows))).
Proof.
  intros rows Hp Hok.
  unfold AppMore.get_habits, try_except.
  rewrite (get_habits_try_reachable E limit w Hp). cbn zeta. fold rows.
  case_bool_decide as Hnil.
  - rewrite Hnil. cbn. exists []. split; [reflexivity|]. split; [reflexivity|].
    intros i h Hi. by rewrite lookup_nil in Hi.
  - rewrite (py_sum_values_ok 0 rows Hok). cbn [obind].
    destruct (habit_entries_ok (length rows)
                (VFloat (foldl Qplus 0 (map sleep_of rows) / nat_to_Q (length rows)))
                rows Hok) as (entries & -> & Hlen & Hall).
    cbn [obind]. exists entries. split; [reflexivity|]. split; [exact Hlen|].
    intros i h Hi. destruct (Hall i h Hi) as (entry & He & H1 & H2 & H3 & H4 & H5).
    exists entry. repeat (split; [assumption|]).
    rewrite H5. unfold mean, py_sum. by rewrite length_map.
Qed.

Lemma get_habits_summary_witness :
  exists entries,
    AppMore.get_habits (env_with_habits two_habits) is_HTTPException_by_name 5
      world_reachable
    = (Returned (App.MkScansResponse true entries),
       after_primary_call world_reachable) /\
    length entries = 2%nat.
Proof.
  destruct (get_habits_summary (env_with_habits two_habits)
              is_HTTPException_by_name 5 world_reachable eq_refl)
    as (entries & Hg & Hlen & _).
  - repeat constructor; eexists; reflexivity.
  - exists entries. split; [exact Hg | exact Hlen].
Defined.

(** X21. On a remote error that is no network error [get_habits]
    re-raises it when it is an [HTTPException] and answers success with an
    empty list otherwise, while [get_scans] answers success with an empty
    list in both cases. *)
Theorem get_habits_lets_http_exception_through
    (E : env) (mm : ModelManager) (is_HTTPException : exn -> bool)
    (limit : Z) (w : world) (e : exn) :
  primary_raises w e ->
  is_network_error e = false ->
  (is_HTTPException e = true ->
   AppMore.get_habits E is_HTTPException limit w = (Raised e, after_primary_call w)) /\
  (is_HTTPException e = false ->
   AppMore.get_habits E is_HTTPException limit w
   = (Returned (App.MkScansResponse true []), after_primary_call w)) /\
  App.get_scans E mm limit w
  = (Returned (App.MkScansResponse true []), after_primary_call w).
Proof.
  unfold primary_raises. intros Hp Hnet.
  split; [|split].
  - intros Hhttp. unfold AppMore.get_habits, AppMore.get_habits_try, try_except,
      bind, supabase_select, raise, after_primary_call. step.
    destruct (next_fault (primary_faults w)) as [f rest]. cbn in Hp. subst f. step.
    rewrite Hnet. by rewrite Hhttp.
  - intros Hhttp. unfold AppMore.get_habits, AppMore.get_habits_try, try_except,
      bind, supabase_select, raise, after_primary_call. step.
    destruct (next_fault (primary_faults w)) as [f rest]. cbn in Hp. subst f. step.
    rewrite Hnet. by rewrite Hhttp.
  - apply (get_scans_permanent E mm limit w e Hp Hnet).
Qed.

Lemma get_habits_lets_http_exception_through_witness :
  AppMore.get_habits sample_env is_HTTPException_by_name 5 world_primary_rejects
  = (Returned (App.MkScansResponse true []),
     after_primary_call world_primary_rejects) /\
  AppMore.get_habits sample_env is_HTTPException_by_name 5 world_primary_http
  = (Raised service_unavailable, after_primary_call world_primary_http).
Proof.
  split.
  - refine (proj1 (proj2 (get_habits_lets_http_exception_through sample_env
              loaded_manager is_HTTPException_by_name 5 world_primary_rejects
              constraint_violation _ _)) _); reflexivity.
  - refine (proj1 (get_habits_lets_http_exception_through sample_env
              loaded_manager is_HTTPException_by_name 5 world_primary_http
              service_unavailable _ _) _); reflexivity.
Defined.

(* ===================================================================== *)
(** ** What the handlers write                                           *)
(* ===================================================================== *)

(** X22. One call of [habits] writes to one store only, adds at most one
    record, and touches no file but the habits file: either one row is
    added to the [habits] table and the files are as they were, or the
    table is as it was and the habits file is as it was, is left without
    a document, has the new record appended, or holds the new record
    alone.  The last happens when the first write fails after [open] has
    truncated the file with an error that [is_network_error] takes for a
    connectivity error, and the second write goes through: the records
    stored before are lost. *)
Theorem habits_writes_at_most_one_store
    (E : env) (mm : ModelManager) (data : HabitSubmission) (w : world) :
  let w' := snd (App.habits E mm data w) in
  let path := Offline.habits_file Offline.offline_storage in
  (forall p, p <> path -> files w' !! p = files w !! p) /\
  ((exists body, primary_rows w' = primary_rows w ++ [("habits"%string, body)]) /\
   files w' = files w \/
   primary_rows w' = primary_rows w /\
   (files w' = files w \/ files w' = delete path (files w) \/
    exists body,
      files w' = <[path := stored w path ++ [body]]> (files w) \/
      files w' = <[path := [body]]> (files w))) /\
  (forall e f,
     primary_raises w e -> is_network_error e = true ->
     fst (next_fault (disk_faults w)) = Some f ->
     fault_stage f = AfterOpen ->
     is_network_error (fault_exn f) = true ->
     fst (next_fault (snd (next_fault (disk_faults w)))) = None ->
     success_of (fst (App.habits E mm data w)) = true /\
     stored w' path = [habit_body E data (after_failed_write w path f)]).
Proof.
  cbv zeta.
  set (path := Offline.habits_file Offline.offline_storage).
  assert (Hshape :
    (exists body, primary_rows (snd (App.habits E mm data w))
                  = primary_rows w ++ [("habits"%string, body)]) /\
    files (snd (App.habits E mm data w)) = files w \/
    primary_rows (snd (App.habits E mm data w)) = primary_rows w /\
    (files (snd (App.habits E mm data w)) = files w \/
     files (snd (App.habits E mm data w)) = delete path (files w) \/
     exists body,
       files (snd (App.habits E mm data w))
       = <[path := stored w path ++ [body]]> (files w) \/
       files (snd (App.habits E mm data w)) = <[path := [body]]> (files w))).
  { destruct (habits_outcome E mm data w) as (r & w' & Hrun & Hcases).
    rewrite Hrun. cbn [snd]. fold path in Hcases.
    destruct Hcases as [(w0 & _ & _ & _ & Hstored)|(_ & Hrows & Hfiles)].
    - destruct Hstored as [[Hrows Hfiles]|[Hrows [Hfiles|Hfiles]]].
      + left. split; [by eexists | exact Hfiles].
      + right. split; [exact Hrows|]. right. right. eexists. left. exact Hfiles.
      + right. split; [exact Hrows|]. right. right. eexists. right. exact Hfiles.
    - right. split; [exact Hrows|].
      destruct Hfiles as [Hfiles|Hfiles]; [left | right; left]; exact Hfiles. }
  split; [|split; [exact Hshape|]].
  - intros p Hne.
    destruct Hshape as [[_ ->]|[_ [->|[->|[body [->| ->]]]]]];
      rewrite ?lookup_delete_ne, ?lookup_insert_ne by congruence; reflexivity.
  - intros e f Hp Hnet Hd Hstage Hnet2 Hd2.
    rewrite (habits_fallback_fails E mm data w e f Hp Hnet Hd). cbv zeta.
    fold path. rewrite Hnet2.
    change (disk_faults (after_failed_write w path f))
      with (snd (next_fault (disk_faults w))).
    rewrite Hd2. cbn [fst snd files]. split; [reflexivity|].
    unfold stored. cbn [files]. rewrite lookup_insert_eq. cbn [default].
    unfold after_failed_write, files_after_fault. cbn [files].
    rewrite Hstage, lookup_delete_eq. reflexivity.
Qed.

Lemma habits_writes_at_most_one_store_witness :
  stored world_torn_write (Offline.habits_file Offline.offline_storage)
    = two_habits /\
  exists body,
    stored (snd (App.habits sample_env loaded_manager sample_submission
                   world_torn_write))
           (Offline.habits_file Offline.offline_storage) = [body] /\
    body !! "id" = Some (VStr "id-1").
Proof.
  split; [reflexivity|].
  eexists. split.
  - apply (proj2 (proj2 (habits_writes_at_most_one_store sample_env
                           loaded_manager sample_submission world_torn_write))
             connect_error (MkDiskFault write_timeout AfterOpen));
      reflexivity.
  - reflexivity.
Defined.

Lemma offline_get_scans_world (self : Offline.OfflineStorage) (limit : Z) (w : world) :
  snd (Offline.get_scans self limit w) = w.
Proof. rewrite get_scans_unfold. by destruct (Offline.sort_desc _ _). Qed.

(** X23. [get_scans] is read-only: after it the table, the files, the
    disk faults and the two counters are as before; only the schedule of
    the remote store has advanced by the one call made. *)
Theorem get_scans_changes_no_store
    (E : env) (mm : ModelManager) (limit : Z) (w : world) :
  snd (App.get_scans E mm limit w) = after_primary_call w.
Proof.
  destruct (fst (next_fault (primary_faults w))) as [e|] eqn:Hp.
  - destruct (is_network_error e) eqn:Hnet.
    + rewrite (get_scans_transient E mm limit w e Hp Hnet).
      pose proof (offline_get_scans_world Offline.offline_storage limit
                    (after_primary_call w)) as Hw.
      destruct (Offline.get_scans _ _ _) as [[rows|e'] w']; cbn [snd] in *;
        by subst w'.
    + by rewrite (proj1 (get_scans_permanent E mm limit w e Hp Hnet)).
  - by rewrite (get_scans_primary_ok E mm limit w Hp).
Qed.

(* ===================================================================== *)
(** ** Recommendations                                                   *)
(* ===================================================================== *)

Lemma py_lt_const_total (d : gmap string pyval) (key : string) (c : Q) (z : Z) :
  numeric_or_absent d key ->
  exists b, py_lt_const (dict_get d key (VInt z)) c = Returned b.
Proof.
  unfold py_lt_const, dict_get. intros [-> | (v & q & -> & Hq)]; cbn.
  - by eexists.
  - rewrite Hq. by eexists.
Qed.

(** X26. [_generate_recommendations] returns when the four inputs it
    reads are numbers or absent.  Its result starts with the one or two
    sentences of the risk level, followed by at most four pieces of
    advice, so it has between one and six entries; an absent
    [exercise_frequency] always brings the exercise advice, an absent
    [sleep_quality] never the sleep advice. *)
Theorem recommendations_spec (risk_level : string) (input_data : gmap string pyval) :
  (numeric_or_absent input_data "sleep_quality" ->
   numeric_or_absent input_data "exercise_frequency" ->
   numeric_or_absent input_data "diet_quality" ->
   numeric_or_absent input_data "social_support" ->
   exists recs, _generate_recommendations risk_level input_data = Returned recs) /\
  (forall recs,
     _generate_recommendations risk_level input_data = Returned recs ->
     (exists advice, recs = risk_recommendations risk_level ++ advice /\
                     (length advice <= 4)%nat) /\
     (1 <= length recs <= 6)%nat /\
     (input_data !! "exercise_frequency" = None ->
      "Try to exercise at least 3 times a week."%string ∈ recs) /\
     (input_data !! "sleep_quality" = None ->
      "Aim for 7-9 hours of quality sleep each night."%string ∉ recs)).
Proof.
  split.
  - intros H1 H2 H3 H4. unfold _generate_recommendations.
    destruct (py_lt_const_total input_data "sleep_quality" 5 5 H1) as [b1 ->].
    destruct (py_lt_const_total input_data "exercise_frequency" 3 0 H2) as [b2 ->].
    destruct (py_lt_const_total input_data "diet_quality" 5 5 H3) as [b3 ->].
    destruct (py_lt_const_total input_data "social_support" 5 5 H4) as [b4 ->].
    cbn [obind]. by eexists.
  - intros recs. unfold _generate_recommendations.
    fold (risk_recommendations risk_level).
    destruct (py_lt_const (dict_get input_data "sleep_quality" (VInt 5)) 5)
      as [b1|] eqn:Hb1; [|discriminate]. cbn [obind].
    destruct (py_lt_const (dict_get input_data "exercise_frequency" (VInt 0)) 3)
      as [b2|] eqn:Hb2; [|discriminate]. cbn [obind].
    destruct (py_lt_const (dict_get input_data "diet_quality" (VInt 5)) 5)
      as [b3|] eqn:Hb3; [|discriminate]. cbn [obind].
    destruct (py_lt_const (dict_get input_data "social_support" (VInt 5)) 5)
      as [b4|] eqn:Hb4; [|discriminate]. cbn [obind].
    intros [= <-].
    assert (Hrisk : (1 <= length (risk_recommendations risk_level) <= 2)%nat).
    { unfold risk_recommendations. repeat case_match; simpl; lia. }
    assert (Hex : input_data !! "exercise_frequency" = None -> b2 = true).
    { intros Hnone. unfold py_lt_const, dict_get in Hb2. rewrite Hnone in Hb2.
      cbn in Hb2. by injection Hb2 as <-. }
    assert (Hsl : input_data !! "sleep_quality" = None -> b1 = false).
    { intros Hnone. unfold py_lt_const, dict_get in Hb1. rewrite Hnone in Hb1.
      cbn in Hb1. by injection Hb1 as <-. }
    split; [|split; [|split]].
    + destruct b1, b2, b3, b4; rewrite <- ?app_assoc; eexists;
        (split; [try reflexivity; symmetry; apply app_nil_r | simpl; lia]).
    + destruct b1, b2, b3, b4; rewrite ?length_app; simpl; lia.
    + intros Hnone. rewrite (Hex Hnone).
      unfold risk_recommendations.
      destruct b1, b3, b4; repeat case_match;
        apply (bool_decide_unpack _); vm_compute; exact I.
    + intros Hnone. rewrite (Hsl Hnone).
      unfold risk_recommendations.
      destruct b2, b3, b4; repeat case_match;
        apply (bool_decide_unpack _); vm_compute; exact I.
Qed.

Lemma recommendations_spec_witness :
  exists recs, _generate_recommendations "high" ∅ = Returned recs.
Proof.
  apply (proj1 (recommendations_spec "high" ∅)); left; reflexivity.
Defined.
